(** * uinput: virtual touch pads and mice

    A shallow embedding of the touch pad and of the mouse of the [uinput]
    package (the two parts of [touchpad.go]).  The Go code talks to the
    kernel through an [*os.File]; here the kernel is a world that logs every
    request it receives and answers it from an oracle, and the Go functions
    are programs in a state-and-error monad over that world. *)

From Stdlib Require Import ZArith String Ascii Lia.
From stdpp Require Import base list.

Local Open Scope string_scope.
Local Open Scope list_scope.
Local Open Scope Z_scope.

(** ** Go values *)

(** A Go [error] is represented by the text of its [Error()] method: every
    error built in the source is [fmt.Errorf("...: %v", err)], which keeps
    nothing but the text of [err]. *)
Definition error := string.

Inductive result (A : Type) : Type :=
| Ok (a : A)
| Err (err : error).
Arguments Ok {A} a.
Arguments Err {A} err.

(** [fmt.Errorf(msg ++ ": %v", err)]. *)
Definition Errorf (msg : string) (err : error) : error :=
  String.append msg (String.append ": " err).

Definition bytes := list Byte.byte.

(** [int32]: a signed 32-bit integer, carried by [Z]. *)
Definition int32_min : Z := - 2 ^ 31.
Definition int32_max : Z := 2 ^ 31 - 1.

(** Conversion of an integer to [int32]: the low 32 bits, read as two's
    complement. *)
Definition to_int32 (z : Z) : Z := (z + 2 ^ 31) mod 2 ^ 32 - 2 ^ 31.

(** The unary minus of Go on [int32] operands. *)
Definition int32_neg (p : Z) : Z := to_int32 (- p).

(** The unsigned 32-bit pattern [u] read as a signed 32-bit value. *)
Definition signed32 (u : Z) : Z := if u <? 2 ^ 31 then u else u - 2 ^ 32.

(** ** Records of the package *)

(** [syscall.Timeval]. *)
Record Timeval := { Sec : Z; Usec : Z }.

(** [inputEvent]: the record written to the device file for every event. *)
Record inputEvent := {
  Time : Timeval;
  Type_ : Z;      (* uint16, the field [Type] *)
  Code : Z;       (* uint16 *)
  Value : Z       (* int32 *)
}.

(** [inputID]. *)
Record inputID := {
  Bustype : Z;
  Vendor : Z;
  Product : Z;
  Version : Z
}.

(** [uinputUserDev], with the fields that the source sets.  [Absmin] and
    [Absmax] are the arrays [[absSize]int32]. *)
Record uinputUserDev := {
  Name : bytes;
  ID : inputID;
  Absmin : list Z;
  Absmax : list Z
}.

(** What the source file takes from the rest of the package and what can be
    kept abstract: the constants, the encoder [inputEventToBuffer] and
    [toUinputName].  Their declarations are in other files of the package. *)
Class uinputDefs := {
  evSyn : Z;
  evKey : Z;
  evRel : Z;
  evAbs : Z;
  synReport : Z;
  relX : Z;
  relY : Z;
  absX : Z;
  absY : Z;
  absSize : Z;
  evBtnLeft : Z;
  evBtnRight : Z;
  btnStateReleased : Z;
  btnStatePressed : Z;
  busUsb : Z;
  uiSetKeyBit : Z;
  uiSetRelBit : Z;
  uiSetAbsBit : Z;
  (* the encoder of event records; it may fail *)
  inputEventToBuffer : inputEvent -> result bytes;
  (* the device name, cut or padded to the size of the name field *)
  toUinputName : bytes -> bytes
}.

(** ** The kernel side *)

(** An [*os.File] is a pointer; the file objects live in the world. *)
Definition File := nat.

Record fileState := {
  f_name : string;   (* the path the file was opened with *)
  f_open : bool      (* false once [Close] has been called *)
}.

(** What reaches the kernel. *)
Inductive call :=
| OpenFile (path : string)
| RegisterDevice (fd : File) (evType : Z)
| Ioctl (fd : File) (req : Z) (arg : Z)
| CreateUsbDevice (fd : File) (dev : uinputUserDev)
| WriteFile (fd : File) (buf : bytes)
| CloseFile (fd : File).

(** A log entry: the call and the kernel's answer ([None] for success). *)
Abbreviation entry := (call * option error)%type.

Record World := {
  log : list entry;                (* oldest first *)
  files : list fileState;          (* the file objects, by address *)
  kernel : nat -> option error     (* the answer to the n-th request *)
}.

(** The answer to the [i]-th request from now on. *)
Definition upcoming (w : World) (i : nat) : option error :=
  kernel w (i + length (log w))%nat.

(** The buffers that were written with success, oldest first. *)
Fixpoint written_in (l : list entry) : list bytes :=
  match l with
  | [] => []
  | (WriteFile _ buf, None) :: l' => buf :: written_in l'
  | _ :: l' => written_in l'
  end.

Definition written (w : World) : list bytes := written_in (log w).

(** ** Programs *)

Definition M (A : Type) : Type := World -> result A * World.

Definition ret {A} (a : A) : M A := fun w => (Ok a, w).

Definition fail {A} (err : error) : M A := fun w => (Err err, w).

Definition bind {A B} (m : M A) (k : A -> M B) : M B :=
  fun w =>
    match m w with
    | (Ok a, w') => k a w'
    | (Err err, w') => (Err err, w')
    end.

(** [x, err := m; if err != nil { h err }]: run [m], and leave through
    [h] when it fails. *)
Definition orElse {A} (m : M A) (h : error -> M A) : M A :=
  fun w =>
    match m w with
    | (Ok a, w') => (Ok a, w')
    | (Err err, w') => h err w'
    end.

(** A call whose results are dropped, as in the statement [f.Close()]. *)
Definition discard {A} (m : M A) : M unit :=
  fun w => (Ok tt, snd (m w)).

Notation "'let*' x ':=' m 'in' k" := (bind m (fun x => k))
  (at level 10, x name, m at level 100, k at level 200).

(** The world once the kernel has answered the call [c]. *)
Definition answered (c : call) (w : World) : World :=
  {| log := log w ++ [(c, upcoming w 0)];
     files := files w;
     kernel := kernel w |}.

(** One request to the kernel: it is logged with its answer. *)
Definition request (c : call) : M unit :=
  fun w =>
    (match upcoming w 0 with None => Ok tt | Some err => Err err end,
     answered c w).

(** [*os.PathError]'s text. *)
Definition PathError (op path : string) (err : error) : error :=
  String.append op (String.append " " (String.append path (String.append ": " err))).

(** [os.ErrClosed] and [os.ErrInvalid]. *)
Definition ErrClosed : error := "file already closed".
Definition ErrInvalid : error := "invalid argument".

(** [Write] of [os.File]: a nil file is invalid, a closed file is refused
    before anything reaches the kernel. *)
Definition File_Write (f : File) (buf : bytes) : M unit :=
  fun w =>
    match files w !! f with
    | None => (Err ErrInvalid, w)
    | Some st =>
        if f_open st
        then orElse (request (WriteFile f buf))
                    (fun err => fail (PathError "write" (f_name st) err)) w
        else (Err (PathError "write" (f_name st) ErrClosed), w)
    end.

(** [Close] of [os.File]: the file is unusable afterwards, whatever the
    kernel answers. *)
Definition File_Close (f : File) : M unit :=
  fun w =>
    match files w !! f with
    | None => (Err ErrInvalid, w)
    | Some st =>
        if f_open st
        then
          (match upcoming w 0 with
           | None => Ok tt
           | Some err => Err (PathError "close" (f_name st) err)
           end,
           {| log := log w ++ [(CloseFile f, upcoming w 0)];
              files := <[f := {| f_name := f_name st; f_open := false |}]> (files w);
              kernel := kernel w |})
        else (Err (PathError "close" (f_name st) ErrClosed), w)
    end.

(** ** Helpers of the package that the source file calls *)

Section Helpers.
Context `{defs : uinputDefs}.

(** Modelled from the spec: [createDeviceFile], which is not in the source
    file.  It opens the kernel device file (section 4.3, "open device
    file"); a failure to open is a setup error (section 7). *)
Definition createDeviceFile (path : string) : M File :=
  fun w =>
    match upcoming w 0 with
    | None =>
        (Ok (length (files w)),
         {| log := log w ++ [(OpenFile path, None)];
            files := files w ++ [{| f_name := path; f_open := true |}];
            kernel := kernel w |})
    | Some err =>
        (Err (PathError "open" path err),
         {| log := log w ++ [(OpenFile path, Some err)];
            files := files w;
            kernel := kernel w |})
    end.

(** Modelled from the spec: [registerDevice], which is not in the source file.
    It is the control request that registers an event category (section 4.3,
    "register key category"); it succeeds or returns an error (section
    4.2). *)
Definition registerDevice (deviceFile : File) (evType : Z) : M unit :=
  request (RegisterDevice deviceFile evType).

(** Modelled from the spec: [ioctl], which is not in the source file.  It is
    [controlCall(handle, request, argument) -> error] of section 4.2. *)
Definition ioctl (deviceFile : File) (req arg : Z) : M unit :=
  request (Ioctl deviceFile req arg).

(** Modelled from the spec: [createUsbDevice], which is not in the source
    file.  It submits the final descriptor; as for every registration
    failure, on failure "the partially-open file handle is closed and a
    descriptive error is returned" (section 4.3).  On success the caller gets
    the device file back.  The text of the error is not the source's. *)
Definition createUsbDevice (deviceFile : File) (dev : uinputUserDev) : M File :=
  let* _ := orElse (request (CreateUsbDevice deviceFile dev))
              (fun err =>
                 let* _ := discard (File_Close deviceFile) in
                 fail (Errorf "failed to create device" err)) in
  ret deviceFile.

(** Modelled from the spec: the synchronization event, a record whose type
    marks it (section 3); its code is the constant [synReport] and its value
    is zero. *)
Definition syncEvent : inputEvent :=
  {| Time := {| Sec := 0; Usec := 0 |};
     Type_ := evSyn; Code := synReport; Value := 0 |}.

(** Modelled from the spec: [syncEvents], which is not in the source file.  It
    writes one synchronization event, "a marker event" (glossary); a codec
    error or a write error is returned (section 4.4).  The text of the error
    is not the source's. *)
Definition syncEvents (deviceFile : File) : M unit :=
  match inputEventToBuffer syncEvent with
  | Err err => fail (Errorf "writing sync event failed" err)
  | Ok buf => File_Write deviceFile buf
  end.

(** Modelled from the spec: a button event, a record of the key/button type
    whose code is the button and whose value is the press or release state
    (section 3). *)
Definition btnEvent (key btnState : Z) : inputEvent :=
  {| Time := {| Sec := 0; Usec := 0 |};
     Type_ := evKey; Code := key; Value := btnState |}.

(** Modelled from the spec: [sendBtnEvent], which is not in the source file.
    It emits "a single button event (state = pressed or released) plus sync"
    (section 4.4), and a codec or write failure "aborts the remaining steps
    of that call and returns immediately".  The texts of the errors are not
    the source's. *)
Definition sendBtnEvent (deviceFile : File) (key btnState : Z) : M unit :=
  match inputEventToBuffer (btnEvent key btnState) with
  | Err err => fail (Errorf "writing button event failed" err)
  | Ok buf =>
      let* _ := orElse (File_Write deviceFile buf)
                  (fun err =>
                     fail (Errorf "failed to write button event to device file" err)) in
      syncEvents deviceFile
  end.

(** Modelled from the spec: [closeDevice], which is not in the source file.
    "Closing a live device issues the kernel's standard handle-close"
    (section 4.3). *)
Definition closeDevice (deviceFile : File) : M unit :=
  File_Close deviceFile.

End Helpers.

(** ** The touch pad (first part of touchpad.go) *)

Module TouchPad.
Section Code.
Context `{defs : uinputDefs}.

Record vTouchPad := {
  name : bytes;
  deviceFile : File
}.

(** An absolute-axis record; the time is the zero value. *)
Definition absEvent (code pos : Z) : inputEvent :=
  {| Time := {| Sec := 0; Usec := 0 |};
     Type_ := evAbs; Code := code; Value := pos |}.

(** The two records that [sendAbsEvent] prepares in [ev]. *)
Definition absEvents (xPos yPos : Z) : list inputEvent :=
  [absEvent absX xPos; absEvent absY yPos].

(** The loop [for _, iev := range ev] of [sendAbsEvent]. *)
Fixpoint writeAbsEvents (deviceFile : File) (ev : list inputEvent) : M unit :=
  match ev with
  | [] => ret tt
  | iev :: ev' =>
      match inputEventToBuffer iev with
      | Err err => fail (Errorf "writing abs event failed" err)
      | Ok buf =>
          let* _ := orElse (File_Write deviceFile buf)
                      (fun err =>
                         fail (Errorf "failed to write abs event to device file" err)) in
          writeAbsEvents deviceFile ev'
      end
  end.

Definition sendAbsEvent (deviceFile : File) (xPos yPos : Z) : M unit :=
  let* _ := writeAbsEvents deviceFile (absEvents xPos yPos) in
  syncEvents deviceFile.

Definition createTouchPad (path : string) (name : bytes)
    (minX maxX minY maxY : Z) : M File :=
  let* deviceFile := orElse (createDeviceFile path)
      (fun err => fail (Errorf "could not create absolute axis input device" err)) in
  let* _ := orElse (registerDevice deviceFile evKey)
      (fun err =>
         let* _ := discard (File_Close deviceFile) in
         fail (Errorf "failed to register key device" err)) in
  let* _ := orElse (ioctl deviceFile uiSetKeyBit evBtnLeft)
      (fun err =>
         let* _ := discard (File_Close deviceFile) in
         fail (Errorf "failed to register left click event" err)) in
  let* _ := orElse (ioctl deviceFile uiSetKeyBit evBtnRight)
      (fun err =>
         let* _ := discard (File_Close deviceFile) in
         fail (Errorf "failed to register right click event" err)) in
  let* _ := orElse (registerDevice deviceFile evAbs)
      (fun err =>
         let* _ := discard (File_Close deviceFile) in
         fail (Errorf "failed to register absolute axis input device" err)) in
  let* _ := orElse (ioctl deviceFile uiSetAbsBit absX)
      (fun err =>
         let* _ := discard (File_Close deviceFile) in
         fail (Errorf "failed to register absolute x axis events" err)) in
  let* _ := orElse (ioctl deviceFile uiSetAbsBit absY)
      (fun err =>
         let* _ := discard (File_Close deviceFile) in
         fail (Errorf "failed to register absolute y axis events" err)) in
  let absMin := replicate (Z.to_nat absSize) 0 in
  let absMin := <[Z.to_nat absX := minX]> absMin in
  let absMin := <[Z.to_nat absY := minY]> absMin in
  let absMax := replicate (Z.to_nat absSize) 0 in
  let absMax := <[Z.to_nat absX := maxX]> absMax in
  let absMax := <[Z.to_nat absY := maxY]> absMax in
  createUsbDevice deviceFile
    {| Name := toUinputName name;
       ID := {| Bustype := busUsb;
                Vendor := 0x4711;
                Product := 0x0817;
                Version := 1 |};
       Absmin := absMin;
       Absmax := absMax |}.

(** [validateDevicePath] and [validateUinputName] are called for a path and
    a name that the caller has validated (section 6 of the spec); their
    results are not used. *)
Definition CreateTouchPad (path : string) (name : bytes)
    (minX maxX minY maxY : Z) : M vTouchPad :=
  let* fd := createTouchPad path name minX maxX minY maxY in
  ret {| name := name; deviceFile := fd |}.

Definition MoveTo (vTouch : vTouchPad) (x y : Z) : M unit :=
  sendAbsEvent (deviceFile vTouch) x y.

Definition LeftClick (vTouch : vTouchPad) : M unit :=
  let* _ := orElse (sendBtnEvent (deviceFile vTouch) evBtnLeft btnStatePressed)
      (fun err => fail (Errorf "Failed to issue the LeftClick event" err)) in
  sendBtnEvent (deviceFile vTouch) evBtnLeft btnStateReleased.

Definition RightClick (vTouch : vTouchPad) : M unit :=
  let* _ := orElse (sendBtnEvent (deviceFile vTouch) evBtnRight btnStatePressed)
      (fun err => fail (Errorf "Failed to issue the RightClick event" err)) in
  sendBtnEvent (deviceFile vTouch) evBtnRight btnStateReleased.

Definition LeftPress (vTouch : vTouchPad) : M unit :=
  sendBtnEvent (deviceFile vTouch) evBtnLeft btnStatePressed.

Definition LeftRelease (vTouch : vTouchPad) : M unit :=
  sendBtnEvent (deviceFile vTouch) evBtnLeft btnStateReleased.

Definition RightPress (vTouch : vTouchPad) : M unit :=
  sendBtnEvent (deviceFile vTouch) evBtnRight btnStatePressed.

Definition RightRelease (vTouch : vTouchPad) : M unit :=
  sendBtnEvent (deviceFile vTouch) evBtnRight btnStateReleased.

Definition Close (vTouch : vTouchPad) : M unit :=
  closeDevice (deviceFile vTouch).

End Code.
End TouchPad.

(** ** The mouse (second part of touchpad.go) *)

Module Mouse.
Section Code.
Context `{defs : uinputDefs}.

Record vMouse := {
  name : bytes;
  deviceFile : File
}.

(** The record that [sendRelEvent] prepares in [iev]. *)
Definition relEvent (eventCode pixel : Z) : inputEvent :=
  {| Time := {| Sec := 0; Usec := 0 |};
     Type_ := evRel; Code := eventCode; Value := pixel |}.

Definition sendRelEvent (deviceFile : File) (eventCode pixel : Z) : M unit :=
  match inputEventToBuffer (relEvent eventCode pixel) with
  | Err err => fail (Errorf "writing abs event failed" err)
  | Ok buf =>
      let* _ := orElse (File_Write deviceFile buf)
                  (fun err =>
                     fail (Errorf "failed to write rel event to device file" err)) in
      syncEvents deviceFile
  end.

Definition createMouse (path : string) (name : bytes) : M File :=
  let* deviceFile := orElse (createDeviceFile path)
      (fun err => fail (Errorf "could not create relative axis input device" err)) in
  let* _ := orElse (registerDevice deviceFile evKey)
      (fun err =>
         let* _ := discard (File_Close deviceFile) in
         fail (Errorf "failed to register key device" err)) in
  let* _ := orElse (ioctl deviceFile uiSetKeyBit evBtnLeft)
      (fun err =>
         let* _ := discard (File_Close deviceFile) in
         fail (Errorf "failed to register left click event" err)) in
  let* _ := orElse (ioctl deviceFile uiSetKeyBit evBtnRight)
      (fun err =>
         let* _ := discard (File_Close deviceFile) in
         fail (Errorf "failed to register right click event" err)) in
  let* _ := orElse (registerDevice deviceFile evRel)
      (fun err =>
         let* _ := discard (File_Close deviceFile) in
         fail (Errorf "failed to register relative axis input device" err)) in
  let* _ := orElse (ioctl deviceFile uiSetRelBit relX)
      (fun err =>
         let* _ := discard (File_Close deviceFile) in
         fail (Errorf "failed to register relative x axis events" err)) in
  let* _ := orElse (ioctl deviceFile uiSetRelBit relY)
      (fun err =>
         let* _ := discard (File_Close deviceFile) in
         fail (Errorf "failed to register relative y axis events" err)) in
  createUsbDevice deviceFile
    {| Name := toUinputName name;
       ID := {| Bustype := busUsb;
                Vendor := 0x4711;
                Product := 0x0816;
                Version := 1 |};
       (* the fields left out of the literal are the zero arrays *)
       Absmin := replicate (Z.to_nat absSize) 0;
       Absmax := replicate (Z.to_nat absSize) 0 |}.

(** [validateDevicePath] and [validateUinputName] are called for a path and
    a name that the caller has validated (section 6 of the spec); their
    results are not used. *)
Definition CreateMouse (path : string) (name : bytes) : M vMouse :=
  let* fd := createMouse path name in
  ret {| name := name; deviceFile := fd |}.

Definition MoveLeft (vRel : vMouse) (pixel : Z) : M unit :=
  sendRelEvent (deviceFile vRel) relX (int32_neg pixel).

Definition MoveRight (vRel : vMouse) (pixel : Z) : M unit :=
  sendRelEvent (deviceFile vRel) relX pixel.

Definition MoveUp (vRel : vMouse) (pixel : Z) : M unit :=
  sendRelEvent (deviceFile vRel) relY (int32_neg pixel).

Definition MoveDown (vRel : vMouse) (pixel : Z) : M unit :=
  sendRelEvent (deviceFile vRel) relY pixel.

Definition LeftClick (vRel : vMouse) : M unit :=
  let* _ := orElse (sendBtnEvent (deviceFile vRel) evBtnLeft btnStatePressed)
      (fun err => fail (Errorf "Failed to issue the LeftClick event" err)) in
  sendBtnEvent (deviceFile vRel) evBtnLeft btnStateReleased.

Definition RightClick (vRel : vMouse) : M unit :=
  let* _ := orElse (sendBtnEvent (deviceFile vRel) evBtnRight btnStatePressed)
      (fun err => fail (Errorf "Failed to issue the RightClick event" err)) in
  sendBtnEvent (deviceFile vRel) evBtnRight btnStateReleased.

Definition LeftPress (vRel : vMouse) : M unit :=
  sendBtnEvent (deviceFile vRel) evBtnLeft btnStatePressed.

Definition LeftRelease (vRel : vMouse) : M unit :=
  sendBtnEvent (deviceFile vRel) evBtnLeft btnStateReleased.

Definition RightPress (vRel : vMouse) : M unit :=
  sendBtnEvent (deviceFile vRel) evBtnRight btnStatePressed.

Definition RightRelease (vRel : vMouse) : M unit :=
  sendBtnEvent (deviceFile vRel) evBtnRight btnStateReleased.

Definition Close (vRel : vMouse) : M unit :=
  closeDevice (deviceFile vRel).

End Code.
End Mouse.

(** ** One platform, to run the programs *)

(** Bytes of an integer, least significant first. *)
Fixpoint le_bytes (n : nat) (z : Z) : bytes :=
  match n with
  | O => []
  | S n' =>
      match Byte.of_N (Z.to_N (z mod 256)) with
      | Some b => b :: le_bytes n' (z / 256)
      | None => []
      end
  end.

(** Modelled from the spec: the event wire format of section 6, "seconds,
    microseconds, type (16-bit), code (16-bit), value (32-bit signed)", for a
    little-endian host with 64-bit time fields. *)
Definition encode_le64 (iev : inputEvent) : result bytes :=
  Ok (le_bytes 8 (Sec (Time iev)) ++ le_bytes 8 (Usec (Time iev))
      ++ le_bytes 2 (Type_ iev) ++ le_bytes 2 (Code iev)
      ++ le_bytes 4 (Value iev)).

(** Modelled from the spec: the name "truncated/padded into a fixed-size
    name field" (section 6); the field has 80 bytes here. *)
Definition pad_name (name : bytes) : bytes :=
  take 80 (name ++ replicate 80 Byte.x00).

(** The constants with the values of Linux's input and uinput headers.
    This instance serves to run the programs on examples; no theorem about
    the package depends on these values. *)
Definition linux : uinputDefs := {|
  evSyn := 0; evKey := 1; evRel := 2; evAbs := 3;
  synReport := 0;
  relX := 0; relY := 1;
  absX := 0; absY := 1; absSize := 64;
  evBtnLeft := 0x110; evBtnRight := 0x111;
  btnStateReleased := 0; btnStatePressed := 1;
  busUsb := 3;
  uiSetKeyBit := 0x40045565;
  uiSetRelBit := 0x40045566;
  uiSetAbsBit := 0x40045567;
  inputEventToBuffer := encode_le64;
  toUinputName := pad_name
|}.


(** A world where nothing has happened and every request succeeds. *)
Definition fresh : World :=
  {| log := []; files := []; kernel := fun _ => None |}.

(** The same, but the [n]-th request fails with [err]. *)
Definition failing (n : nat) (err : error) : World :=
  {| log := []; files := [];
     kernel := fun i => if Nat.eqb i n then Some err else None |}.

(** ** The registration protocol, as the spec words it *)

Section Protocol.
Context `{defs : uinputDefs}.

(** A list of control requests, each with the text that names its stage;
    the first one that fails closes the device file and ends the run with
    that text.  [k] is what follows the last request. *)
Fixpoint registering {A} (deviceFile : File) (steps : list (call * string))
    (k : M A) : M A :=
  match steps with
  | [] => k
  | (c, stage) :: steps' =>
      let* _ := orElse (request c)
          (fun err =>
             let* _ := discard (File_Close deviceFile) in
             fail (Errorf stage err)) in
      registering deviceFile steps' k
  end.

(** Section 4.3, mouse: "register key category, register left-button code,
    register right-button code, register relative-motion category, register
    X code, register Y code". *)
Definition mouseSteps (f : File) : list (call * string) :=
  [ (RegisterDevice f evKey, "failed to register key device");
    (Ioctl f uiSetKeyBit evBtnLeft, "failed to register left click event");
    (Ioctl f uiSetKeyBit evBtnRight, "failed to register right click event");
    (RegisterDevice f evRel, "failed to register relative axis input device");
    (Ioctl f uiSetRelBit relX, "failed to register relative x axis events");
    (Ioctl f uiSetRelBit relY, "failed to register relative y axis events") ].

(** Section 4.3, touchpad: "same key/button sequence, register
    absolute-position category, register X code, register Y code". *)
Definition touchPadSteps (f : File) : list (call * string) :=
  [ (RegisterDevice f evKey, "failed to register key device");
    (Ioctl f uiSetKeyBit evBtnLeft, "failed to register left click event");
    (Ioctl f uiSetKeyBit evBtnRight, "failed to register right click event");
    (RegisterDevice f evAbs, "failed to register absolute axis input device");
    (Ioctl f uiSetAbsBit absX, "failed to register absolute x axis events");
    (Ioctl f uiSetAbsBit absY, "failed to register absolute y axis events") ].

(** The descriptor of a mouse: "no axis bounds". *)
Definition mouseDev (name : bytes) : uinputUserDev :=
  {| Name := toUinputName name;
     ID := {| Bustype := busUsb; Vendor := 0x4711;
              Product := 0x0816; Version := 1 |};
     Absmin := replicate (Z.to_nat absSize) 0;
     Absmax := replicate (Z.to_nat absSize) 0 |}.

(** The descriptor of a touchpad, "carrying per-axis min/max bounds". *)
Definition touchPadDev (name : bytes) (minX maxX minY maxY : Z) : uinputUserDev :=
  {| Name := toUinputName name;
     ID := {| Bustype := busUsb; Vendor := 0x4711;
              Product := 0x0817; Version := 1 |};
     Absmin := <[Z.to_nat absY := minY]>
                 (<[Z.to_nat absX := minX]> (replicate (Z.to_nat absSize) 0));
     Absmax := <[Z.to_nat absY := maxY]>
                 (<[Z.to_nat absX := maxX]> (replicate (Z.to_nat absSize) 0)) |}.

(** The last stage of both protocols: "submit final descriptor". *)
Definition finalStep (f : File) (dev : uinputUserDev) : call * string :=
  (CreateUsbDevice f dev, "failed to create device").

(** The calls of a creation, in the order of section 4.3. *)
Definition mouseCalls (path : string) (name : bytes) (f : File) : list call :=
  OpenFile path :: map fst (mouseSteps f ++ [finalStep f (mouseDev name)]).

Definition touchPadCalls (path : string) (name : bytes)
    (minX maxX minY maxY : Z) (f : File) : list call :=
  OpenFile path
  :: map fst (touchPadSteps f
              ++ [finalStep f (touchPadDev name minX maxX minY maxY)]).

(** The log entries of calls that the kernel accepted. *)
Definition accepted (cs : list call) : list entry :=
  map (fun c => (c, None)) cs.

(** The world after [path] has been opened with success. *)
Definition opened (path : string) (w : World) : World :=
  {| log := log w ++ [(OpenFile path, None)];
     files := files w ++ [{| f_name := path; f_open := true |}];
     kernel := kernel w |}.

End Protocol.

(** ** The operations of the two interfaces *)

Section Operations.
Context `{defs : uinputDefs}.

Inductive operation :=
| TouchPad_MoveTo (v : TouchPad.vTouchPad) (x y : Z)
| TouchPad_LeftClick (v : TouchPad.vTouchPad)
| TouchPad_RightClick (v : TouchPad.vTouchPad)
| TouchPad_LeftPress (v : TouchPad.vTouchPad)
| TouchPad_LeftRelease (v : TouchPad.vTouchPad)
| TouchPad_RightPress (v : TouchPad.vTouchPad)
| TouchPad_RightRelease (v : TouchPad.vTouchPad)
| Mouse_MoveLeft (v : Mouse.vMouse) (pixel : Z)
| Mouse_MoveRight (v : Mouse.vMouse) (pixel : Z)
| Mouse_MoveUp (v : Mouse.vMouse) (pixel : Z)
| Mouse_MoveDown (v : Mouse.vMouse) (pixel : Z)
| Mouse_LeftClick (v : Mouse.vMouse)
| Mouse_RightClick (v : Mouse.vMouse)
| Mouse_LeftPress (v : Mouse.vMouse)
| Mouse_LeftRelease (v : Mouse.vMouse)
| Mouse_RightPress (v : Mouse.vMouse)
| Mouse_RightRelease (v : Mouse.vMouse).

(** The method call that an operation stands for. *)
Definition perform (op : operation) : M unit :=
  match op with
  | TouchPad_MoveTo v x y => TouchPad.MoveTo v x y
  | TouchPad_LeftClick v => TouchPad.LeftClick v
  | TouchPad_RightClick v => TouchPad.RightClick v
  | TouchPad_LeftPress v => TouchPad.LeftPress v
  | TouchPad_LeftRelease v => TouchPad.LeftRelease v
  | TouchPad_RightPress v => TouchPad.RightPress v
  | TouchPad_RightRelease v => TouchPad.RightRelease v
  | Mouse_MoveLeft v p => Mouse.MoveLeft v p
  | Mouse_MoveRight v p => Mouse.MoveRight v p
  | Mouse_MoveUp v p => Mouse.MoveUp v p
  | Mouse_MoveDown v p => Mouse.MoveDown v p
  | Mouse_LeftClick v => Mouse.LeftClick v
  | Mouse_RightClick v => Mouse.RightClick v
  | Mouse_LeftPress v => Mouse.LeftPress v
  | Mouse_LeftRelease v => Mouse.LeftRelease v
  | Mouse_RightPress v => Mouse.RightPress v
  | Mouse_RightRelease v => Mouse.RightRelease v
  end.

(** The device file of the handle that an operation is called on. *)
Definition handle (op : operation) : File :=
  match op with
  | TouchPad_MoveTo v _ _ | TouchPad_LeftClick v | TouchPad_RightClick v
  | TouchPad_LeftPress v | TouchPad_LeftRelease v
  | TouchPad_RightPress v | TouchPad_RightRelease v => TouchPad.deviceFile v
  | Mouse_MoveLeft v _ | Mouse_MoveRight v _ | Mouse_MoveUp v _
  | Mouse_MoveDown v _ | Mouse_LeftClick v | Mouse_RightClick v
  | Mouse_LeftPress v | Mouse_LeftRelease v
  | Mouse_RightPress v | Mouse_RightRelease v => Mouse.deviceFile v
  end.

(** [Close] on the handle that an operation is called on. *)
Definition close (op : operation) : M unit :=
  match op with
  | TouchPad_MoveTo v _ _ | TouchPad_LeftClick v | TouchPad_RightClick v
  | TouchPad_LeftPress v | TouchPad_LeftRelease v
  | TouchPad_RightPress v | TouchPad_RightRelease v => TouchPad.Close v
  | Mouse_MoveLeft v _ | Mouse_MoveRight v _ | Mouse_MoveUp v _
  | Mouse_MoveDown v _ | Mouse_LeftClick v | Mouse_RightClick v
  | Mouse_LeftPress v | Mouse_LeftRelease v
  | Mouse_RightPress v | Mouse_RightRelease v => Mouse.Close v
  end.

(** The text that a click puts before the error of its press. *)
Definition clickText (op : operation) : string :=
  match op with
  | TouchPad_LeftClick _ | Mouse_LeftClick _ =>
      "Failed to issue the LeftClick event"
  | _ => "Failed to issue the RightClick event"
  end.

(** The button of a click. *)
Definition clicked (op : operation) : option Z :=
  match op with
  | TouchPad_LeftClick _ | Mouse_LeftClick _ => Some evBtnLeft
  | TouchPad_RightClick _ | Mouse_RightClick _ => Some evBtnRight
  | _ => None
  end.

End Operations.





(** ** What a program may do to the world *)

(** The program [m] only writes to the file [f], at most [n] times, and stops
    at the first write that the kernel refuses: what it adds to the log are
    accepted writes to [f], followed by at most one refused write to [f], in
    which case [m] returns an error; when [m] returns no error, it has made
    [n] accepted writes.  The files and the oracle are left as they were. *)
Definition writes_only (f : File) (n : nat) (m : M unit) : Prop :=
  forall w, exists bufs tail,
    snd (m w) = {| log := log w ++ accepted (map (WriteFile f) bufs) ++ tail;
                   files := files w; kernel := kernel w |} /\
    (length bufs + length tail <= n)%nat /\
    (tail = [] \/
     exists buf e err, tail = [(WriteFile f buf, Some e)] /\ fst (m w) = Err err) /\
    (fst (m w) = Ok tt -> length bufs = n).

(** The number of records of an operation. *)
Definition records (op : operation) : nat :=
  match op with
  | TouchPad_MoveTo _ _ _ => 3
  | TouchPad_LeftClick _ | TouchPad_RightClick _
  | Mouse_LeftClick _ | Mouse_RightClick _ => 4
  | _ => 2
  end.

(** The texts that the source puts before the error of a stage of a
    creation: the opening first, then the six registrations. *)
Definition touchPadTexts : list string :=
  [ "could not create absolute axis input device";
    "failed to register key device";
    "failed to register left click event";
    "failed to register right click event";
    "failed to register absolute axis input device";
    "failed to register absolute x axis events";
    "failed to register absolute y axis events" ].

Definition mouseTexts : list string :=
  [ "could not create relative axis input device";
    "failed to register key device";
    "failed to register left click event";
    "failed to register right click event";
    "failed to register relative axis input device";
    "failed to register relative x axis events";
    "failed to register relative y axis events" ].

(** How a creation whose first [n] requests were accepted ends its log: when
    the kernel refuses the [n]-th call of [calls], with that refused call,
    followed by the closing of the device file [f] unless the refused call is
    the opening itself; with nothing when there is no [n]-th call or it is
    accepted. *)
Definition refusal (f : File) (w : World) (calls : list call) (n : nat)
    : list entry :=
  match calls !! n, upcoming w n with
  | Some c, Some e =>
      (c, Some e)
      :: match n with
         | O => []
         | S _ => [(CloseFile f, upcoming w (S n))]
         end
  | _, _ => []
  end.

(** What the kernel's refusal becomes before the text of the stage is put
    before it: the opening wraps it with the path. *)
Definition cause (path : string) (n : nat) (e : error) : error :=
  match n with
  | O => PathError "open" path e
  | S _ => e
  end.

(** ** Handles and worlds to run the programs on *)

(** A world where the device file of address 0 is open. *)
Definition plugged : World := opened "/dev/uinput" fresh.

(** The same, but the [n]-th request after the opening is refused. *)
Definition unplugged (n : nat) (err : error) : World :=
  opened "/dev/uinput" (failing (S n) err).

Definition pad : TouchPad.vTouchPad :=
  {| TouchPad.name := []; TouchPad.deviceFile := 0%nat |}.

Definition rodent : Mouse.vMouse :=
  {| Mouse.name := []; Mouse.deviceFile := 0%nat |}.

(** ** Facts about the monad and the kernel side *)

Lemma bind_ok {A B} (m : M A) (k : A -> M B) w a w1 :
  m w = (Ok a, w1) -> bind m k w = k a w1.
Proof. intros H. unfold bind. now rewrite H. Qed.

Lemma bind_err {A B} (m : M A) (k : A -> M B) w err w1 :
  m w = (Err err, w1) -> bind m k w = (Err err, w1).
Proof. intros H. unfold bind. now rewrite H. Qed.

Lemma orElse_ok {A} (m : M A) (h : error -> M A) w a w1 :
  m w = (Ok a, w1) -> orElse m h w = (Ok a, w1).
Proof. intros H. unfold orElse. now rewrite H. Qed.

Lemma orElse_err {A} (m : M A) (h : error -> M A) w err w1 :
  m w = (Err err, w1) -> orElse m h w = h err w1.
Proof. intros H. unfold orElse. now rewrite H. Qed.

Lemma upcoming_answered c w i :
  upcoming (answered c w) i = upcoming w (S i).
Proof.
  unfold upcoming, answered. cbn [log kernel].
  rewrite length_app. cbn [length]. f_equal. lia.
Qed.

Lemma written_in_app l1 l2 :
  written_in (l1 ++ l2) = written_in l1 ++ written_in l2.
Proof.
  induction l1 as [|[c o] l1 IH]; [reflexivity|].
  destruct c, o; cbn; rewrite ?IH; reflexivity.
Qed.


(** A write that succeeds adds its buffer to the log and nothing else. *)
Lemma File_Write_ok_inv f buf w w1 :
  File_Write f buf w = (Ok tt, w1) ->
  w1 = {| log := log w ++ [(WriteFile f buf, None)];
          files := files w; kernel := kernel w |}.
Proof.
  unfold File_Write, orElse, request, fail, answered.
  destruct (files w !! f) as [st|]; [|discriminate].
  destruct (f_open st); [|discriminate].
  destruct (upcoming w 0) eqn:E; [discriminate|].
  now intros [= <-].
Qed.

(** A write that fails leaves what has been written as it was. *)
Lemma File_Write_err_inv f buf w err w1 :
  File_Write f buf w = (Err err, w1) ->
  written w1 = written w /\ files w1 = files w /\ kernel w1 = kernel w.
Proof.
  unfold File_Write, orElse, request, fail, answered, written.
  destruct (files w !! f) as [st|]; [|now intros [= _ <-]].
  destruct (f_open st); [|now intros [= _ <-]].
  destruct (upcoming w 0) eqn:E; [|discriminate].
  intros [= _ <-]. cbn [log files kernel].
  rewrite written_in_app. cbn. now rewrite app_nil_r.
Qed.

Section Emitters.
Context `{defs : uinputDefs}.

(** The synchronization step after a write that succeeded. *)
Lemma syncEvents_ok f bufS w w1 :
  inputEventToBuffer syncEvent = Ok bufS ->
  File_Write f bufS w = (Ok tt, w1) ->
  syncEvents f w = (Ok tt, w1).
Proof. intros HS HW. unfold syncEvents. now rewrite HS. Qed.

(** The loop of [sendAbsEvent] when both records encode and both writes
    succeed. *)
Lemma writeAbsEvents_ok f x y bufX bufY w w1 w2 :
  inputEventToBuffer (TouchPad.absEvent absX x) = Ok bufX ->
  inputEventToBuffer (TouchPad.absEvent absY y) = Ok bufY ->
  File_Write f bufX w = (Ok tt, w1) ->
  File_Write f bufY w1 = (Ok tt, w2) ->
  TouchPad.writeAbsEvents f (TouchPad.absEvents x y) w = (Ok tt, w2).
Proof.
  intros HX HY W1 W2. unfold TouchPad.absEvents.
  cbn [TouchPad.writeAbsEvents]. rewrite HX, HY.
  rewrite (bind_ok _ _ w tt w1); [|now apply orElse_ok].
  rewrite (bind_ok _ _ w1 tt w2); [|now apply orElse_ok].
  reflexivity.
Qed.

(** C1. For all coordinates x and y, when the three records encode and the
    three writes succeed, MoveTo(x, y) adds to the log of the device file
    exactly three writes, in this order: the encoding of the absolute-axis
    record (type evAbs) with code absX and value x, that of the
    absolute-axis record with code absY and value y, and that of the
    synchronization record.  Nothing else changes. *)
Theorem MoveTo_three_records (vTouch : TouchPad.vTouchPad) (x y : Z)
    (bufX bufY bufS : bytes) (w w1 w2 w3 : World) :
  let f := TouchPad.deviceFile vTouch in
  inputEventToBuffer
    {| Time := {| Sec := 0; Usec := 0 |};
       Type_ := evAbs; Code := absX; Value := x |} = Ok bufX ->
  inputEventToBuffer
    {| Time := {| Sec := 0; Usec := 0 |};
       Type_ := evAbs; Code := absY; Value := y |} = Ok bufY ->
  inputEventToBuffer
    {| Time := {| Sec := 0; Usec := 0 |};
       Type_ := evSyn; Code := synReport; Value := 0 |} = Ok bufS ->
  File_Write f bufX w = (Ok tt, w1) ->
  File_Write f bufY w1 = (Ok tt, w2) ->
  File_Write f bufS w2 = (Ok tt, w3) ->
  TouchPad.MoveTo vTouch x y w = (Ok tt, w3) /\
  w3 = {| log := log w ++ [(WriteFile f bufX, None);
                           (WriteFile f bufY, None);
                           (WriteFile f bufS, None)];
          files := files w; kernel := kernel w |}.
Proof.
  intros f HX HY HS W1 W2 W3. split.
  - unfold TouchPad.MoveTo, TouchPad.sendAbsEvent. fold f.
    rewrite (bind_ok _ _ w tt w2);
      [now apply (syncEvents_ok f bufS)|].
    now apply (writeAbsEvents_ok f x y bufX bufY w w1 w2).
  - apply File_Write_ok_inv in W1, W2, W3. subst w1 w2 w3.
    cbn [log files kernel]. now rewrite <- !app_assoc.
Qed.

(** One button event and its synchronization. *)
Lemma sendBtnEvent_ok f key btnState buf bufS w w1 w2 :
  inputEventToBuffer (btnEvent key btnState) = Ok buf ->
  inputEventToBuffer syncEvent = Ok bufS ->
  File_Write f buf w = (Ok tt, w1) ->
  File_Write f bufS w1 = (Ok tt, w2) ->
  sendBtnEvent f key btnState w = (Ok tt, w2).
Proof.
  intros HB HS W1 W2. unfold sendBtnEvent. rewrite HB.
  rewrite (bind_ok _ _ w tt w1); [|now apply orElse_ok].
  now apply (syncEvents_ok f bufS).
Qed.

(** One relative event and its synchronization. *)
Lemma sendRelEvent_ok f code pixel buf bufS w w1 w2 :
  inputEventToBuffer (Mouse.relEvent code pixel) = Ok buf ->
  inputEventToBuffer syncEvent = Ok bufS ->
  File_Write f buf w = (Ok tt, w1) ->
  File_Write f bufS w1 = (Ok tt, w2) ->
  Mouse.sendRelEvent f code pixel w = (Ok tt, w2).
Proof.
  intros HB HS W1 W2. unfold Mouse.sendRelEvent. rewrite HB.
  rewrite (bind_ok _ _ w tt w1); [|now apply orElse_ok].
  now apply (syncEvents_ok f bufS).
Qed.

(** C2. For the touchpad and for the mouse, when the records encode and
    every write succeeds, LeftClick adds exactly four writes to the log of
    the device file: the button record of the left button with the pressed
    state, the synchronization record, the button record of the left button
    with the released state, the synchronization record; RightClick does the
    same with the right button. *)
Theorem click_four_records (op : operation) (key : Z)
    (bufP bufR bufS : bytes) (w w1 w2 w3 w4 : World) :
  let f := handle op in
  clicked op = Some key ->
  inputEventToBuffer (btnEvent key btnStatePressed) = Ok bufP ->
  inputEventToBuffer (btnEvent key btnStateReleased) = Ok bufR ->
  inputEventToBuffer syncEvent = Ok bufS ->
  File_Write f bufP w = (Ok tt, w1) ->
  File_Write f bufS w1 = (Ok tt, w2) ->
  File_Write f bufR w2 = (Ok tt, w3) ->
  File_Write f bufS w3 = (Ok tt, w4) ->
  perform op w = (Ok tt, w4) /\
  w4 = {| log := log w ++ [(WriteFile f bufP, None);
                           (WriteFile f bufS, None);
                           (WriteFile f bufR, None);
                           (WriteFile f bufS, None)];
          files := files w; kernel := kernel w |}.
Proof.
  intros f Hc HP HR HS W1 W2 W3 W4. split.
  - destruct op; cbn [clicked] in Hc; try discriminate;
      injection Hc as <-; cbn [perform handle] in *;
      unfold TouchPad.LeftClick, TouchPad.RightClick,
             Mouse.LeftClick, Mouse.RightClick;
      (rewrite (bind_ok _ _ w tt w2);
       [ now apply (sendBtnEvent_ok f _ _ bufR bufS w2 w3 w4)
       | apply orElse_ok;
         now apply (sendBtnEvent_ok f _ _ bufP bufS w w1 w2) ]).
  - apply File_Write_ok_inv in W1, W2, W3, W4. subst w1 w2 w3 w4.
    cbn [log files kernel]. now rewrite <- !app_assoc.
Qed.

(** C5. In MoveTo, when the absolute-X record does not encode, or its write
    fails, the call returns the error at once, in the world that the failed
    step left: the absolute-Y record and the synchronization record are not
    written.  When the absolute-Y record does not encode, or its write
    fails, the absolute-X record has been written and the synchronization
    record is not. *)
Theorem MoveTo_partial_failure (vTouch : TouchPad.vTouchPad) (x y : Z) (w : World) :
  let f := TouchPad.deviceFile vTouch in
  (forall err,
     inputEventToBuffer (TouchPad.absEvent absX x) = Err err ->
     TouchPad.MoveTo vTouch x y w
       = (Err (Errorf "writing abs event failed" err), w)) /\
  (forall bufX err w1,
     inputEventToBuffer (TouchPad.absEvent absX x) = Ok bufX ->
     File_Write f bufX w = (Err err, w1) ->
     TouchPad.MoveTo vTouch x y w
       = (Err (Errorf "failed to write abs event to device file" err), w1) /\
     written w1 = written w) /\
  (forall bufX w1 err,
     inputEventToBuffer (TouchPad.absEvent absX x) = Ok bufX ->
     File_Write f bufX w = (Ok tt, w1) ->
     inputEventToBuffer (TouchPad.absEvent absY y) = Err err ->
     TouchPad.MoveTo vTouch x y w
       = (Err (Errorf "writing abs event failed" err), w1) /\
     written w1 = written w ++ [bufX]) /\
  (forall bufX w1 bufY err w2,
     inputEventToBuffer (TouchPad.absEvent absX x) = Ok bufX ->
     File_Write f bufX w = (Ok tt, w1) ->
     inputEventToBuffer (TouchPad.absEvent absY y) = Ok bufY ->
     File_Write f bufY w1 = (Err err, w2) ->
     TouchPad.MoveTo vTouch x y w
       = (Err (Errorf "failed to write abs event to device file" err), w2) /\
     written w2 = written w ++ [bufX]).
Proof.
  intros f.
  unfold TouchPad.MoveTo, TouchPad.sendAbsEvent, TouchPad.absEvents.
  fold f. cbn [TouchPad.writeAbsEvents].
  assert (Hw : forall buf w0 w1, File_Write f buf w0 = (Ok tt, w1) ->
               written w1 = written w0 ++ [buf]).
  { intros buf w0 w1 H. apply File_Write_ok_inv in H. subst w1.
    unfold written. cbn [log]. now rewrite written_in_app. }
  repeat split.
  - intros err HX. now rewrite HX.
  - rewrite H. apply bind_err, bind_err.
    now rewrite (orElse_err _ _ w err w1).
  - now apply File_Write_err_inv in H0.
  - rewrite H, H1. apply bind_err.
    now rewrite (bind_ok _ _ w tt w1); [|apply orElse_ok].
  - now apply Hw.
  - rewrite H, H1. apply bind_err.
    rewrite (bind_ok _ _ w tt w1); [|now apply orElse_ok].
    apply bind_err. now rewrite (orElse_err _ _ w1 err w2).
  - apply File_Write_err_inv in H2 as [-> _]. now apply Hw.
Qed.

(** The negation of an [int32] is the integer negation, except at the least
    [int32]. *)
Lemma int32_neg_exact p :
  int32_min < p <= int32_max -> int32_neg p = - p.
Proof.
  unfold int32_neg, to_int32, int32_min, int32_max. intros H.
  rewrite Z.mod_small; lia.
Qed.

(** C7. For every pixel argument p, when the records encode and the writes
    succeed, MoveLeft(p) adds exactly two writes to the log of the device
    file: the encoding of one relative record (type evRel) with code relX and
    value -p, and that of one synchronization record; MoveRight(p) does so
    with code relX and value p, MoveUp(p) with code relY and value -p,
    MoveDown(p) with code relY and value p.  The negation is that of Go on
    int32, which is the integer negation for every p above the least
    int32. *)
Theorem relative_move_records (op : operation) (code delta : Z)
    (buf bufS : bytes) (w w1 w2 : World) :
  let f := handle op in
  (exists v p,
     op = Mouse_MoveLeft v p /\ code = relX /\ delta = int32_neg p \/
     op = Mouse_MoveRight v p /\ code = relX /\ delta = p \/
     op = Mouse_MoveUp v p /\ code = relY /\ delta = int32_neg p \/
     op = Mouse_MoveDown v p /\ code = relY /\ delta = p) ->
  inputEventToBuffer
    {| Time := {| Sec := 0; Usec := 0 |};
       Type_ := evRel; Code := code; Value := delta |} = Ok buf ->
  inputEventToBuffer
    {| Time := {| Sec := 0; Usec := 0 |};
       Type_ := evSyn; Code := synReport; Value := 0 |} = Ok bufS ->
  File_Write f buf w = (Ok tt, w1) ->
  File_Write f bufS w1 = (Ok tt, w2) ->
  perform op w = (Ok tt, w2) /\
  w2 = {| log := log w ++ [(WriteFile f buf, None); (WriteFile f bufS, None)];
          files := files w; kernel := kernel w |} /\
  (forall p, int32_min < p <= int32_max -> int32_neg p = - p).
Proof.
  intros f Hm HB HS W1 W2. split; [|split].
  - destruct Hm as (v & p & [(-> & -> & ->) | [(-> & -> & ->)
                              | [(-> & -> & ->) | (-> & -> & ->)]]]);
      cbn [perform handle] in *;
      unfold Mouse.MoveLeft, Mouse.MoveRight, Mouse.MoveUp, Mouse.MoveDown;
      now apply (sendRelEvent_ok f _ _ buf bufS w w1 w2).
  - apply File_Write_ok_inv in W1, W2. subst w1 w2.
    cbn [log files kernel]. now rewrite <- !app_assoc.
  - apply int32_neg_exact.
Qed.


Lemma int32_neg_twos_complement p :
  int32_neg p = signed32 ((2 ^ 32 - p) mod 2 ^ 32).
Proof.
  unfold int32_neg, to_int32, signed32.
  destruct (Z.ltb_spec ((2 ^ 32 - p) mod 2 ^ 32) (2 ^ 31));
    Z.div_mod_to_equations; lia.
Qed.

(** C10. The negation in MoveLeft and MoveUp is the two's-complement
    negation on 32 bits: for every p, when the records encode and the writes
    succeed, what MoveLeft(p) writes is the encoding of the relative record
    with code relX whose value is (2^32 - p) mod 2^32 read as a signed 32-bit
    value, followed by the synchronization record, and MoveUp(p) writes the
    same with code relY; for p = -2147483648 that value is -2147483648
    itself, not 2147483648. *)
Theorem negation_wraps (vRel : Mouse.vMouse) (up : bool) (p delta : Z)
    (buf bufS : bytes) (w w1 w2 : World) :
  let f := Mouse.deviceFile vRel in
  delta = signed32 ((2 ^ 32 - p) mod 2 ^ 32) ->
  inputEventToBuffer
    {| Time := {| Sec := 0; Usec := 0 |};
       Type_ := evRel; Code := if up then relY else relX;
       Value := delta |} = Ok buf ->
  inputEventToBuffer
    {| Time := {| Sec := 0; Usec := 0 |};
       Type_ := evSyn; Code := synReport; Value := 0 |} = Ok bufS ->
  File_Write f buf w = (Ok tt, w1) ->
  File_Write f bufS w1 = (Ok tt, w2) ->
  (if up then Mouse.MoveUp vRel p else Mouse.MoveLeft vRel p) w = (Ok tt, w2) /\
  w2 = {| log := log w ++ [(WriteFile f buf, None); (WriteFile f bufS, None)];
          files := files w; kernel := kernel w |} /\
  (p = -2147483648 -> delta = -2147483648 /\ delta <> 2147483648).
Proof.
  intros f -> HB HS W1 W2.
  rewrite <- int32_neg_twos_complement in *. split; [|split].
  - destruct up; unfold Mouse.MoveUp, Mouse.MoveLeft;
      now apply (sendRelEvent_ok f _ _ buf bufS w w1 w2).
  - apply File_Write_ok_inv in W1, W2. subst w1 w2.
    cbn [log files kernel]. now rewrite <- !app_assoc.
  - intros ->. split; [reflexivity|discriminate].
Qed.

(** *** After Close *)







Section Closed.
Variables (f : File) (w : World) (st : fileState).
Hypothesis Hf : files w !! f = Some st.
Hypothesis Ho : f_open st = false.






End Closed.


(** *** More on failures *)

(** X3. A click whose press fails returns that error behind the text of the
    click, in the world the press left, and the release is not sent; when the
    press succeeds, the result of the click is that of the release. *)
Theorem click_press_failure (op : operation) (key : Z) (w w1 : World) :
  clicked op = Some key ->
  (forall e,
     sendBtnEvent (handle op) key btnStatePressed w = (Err e, w1) ->
     perform op w = (Err (Errorf (clickText op) e), w1)) /\
  (sendBtnEvent (handle op) key btnStatePressed w = (Ok tt, w1) ->
   perform op w = sendBtnEvent (handle op) key btnStateReleased w1).
Proof.
  intros Hc. split.
  - intros e H.
    destruct op; cbn [clicked] in Hc; try discriminate;
      injection Hc as <-; cbn [perform handle clickText] in *;
      unfold TouchPad.LeftClick, TouchPad.RightClick,
             Mouse.LeftClick, Mouse.RightClick;
      apply bind_err; now rewrite (orElse_err _ _ w e w1).
  - intros H.
    destruct op; cbn [clicked] in Hc; try discriminate;
      injection Hc as <-; cbn [perform handle] in *;
      unfold TouchPad.LeftClick, TouchPad.RightClick,
             Mouse.LeftClick, Mouse.RightClick;
      (rewrite (bind_ok _ _ w tt w1); [reflexivity|now apply orElse_ok]).
Qed.

(** X4. A relative move whose record does not encode writes nothing; one whose
    write fails returns the error in the world the write left, and the
    synchronization record is not written. *)
Theorem sendRelEvent_failure (f : File) (code pixel : Z) (w : World) :
  (forall e,
     inputEventToBuffer (Mouse.relEvent code pixel) = Err e ->
     Mouse.sendRelEvent f code pixel w
       = (Err (Errorf "writing abs event failed" e), w)) /\
  (forall buf e w1,
     inputEventToBuffer (Mouse.relEvent code pixel) = Ok buf ->
     File_Write f buf w = (Err e, w1) ->
     Mouse.sendRelEvent f code pixel w
       = (Err (Errorf "failed to write rel event to device file" e), w1) /\
     written w1 = written w).
Proof.
  unfold Mouse.sendRelEvent. split.
  - intros e H. now rewrite H.
  - intros buf e w1 H HW. rewrite H. split.
    + apply bind_err. now rewrite (orElse_err _ _ w e w1).
    + now apply File_Write_err_inv in HW.
Qed.

End Emitters.

(** ** Creating a device *)

Lemma upcoming_opened path w i :
  upcoming (opened path w) i = upcoming w (S i).
Proof.
  unfold upcoming, opened. cbn [log kernel].
  rewrite length_app. cbn [length]. f_equal. lia.
Qed.

(** Closing an open file, with the result dropped. *)
Lemma discard_Close_open f w st :
  files w !! f = Some st -> f_open st = true ->
  discard (File_Close f) w =
    (Ok tt,
     {| log := log w ++ [(CloseFile f, upcoming w 0)];
        files := <[f := {| f_name := f_name st; f_open := false |}]> (files w);
        kernel := kernel w |}).
Proof. intros Hf Ho. unfold discard, File_Close. now rewrite Hf, Ho. Qed.

Section Registering.
Context `{defs : uinputDefs}.

(** When every request is accepted, the run goes on with [k] after the
    requests, logged in the order of the list. *)
Lemma registering_ok {A} f (k : M A) steps : forall w,
  (forall i, (i < length steps)%nat -> upcoming w i = None) ->
  registering f steps k w =
    k {| log := log w ++ accepted (map fst steps);
         files := files w; kernel := kernel w |}.
Proof.
  induction steps as [|[c stage] steps IH]; intros w Hup.
  - cbn. rewrite app_nil_r. now destruct w.
  - cbn [registering].
    rewrite (bind_ok _ _ w tt (answered c w)).
    + rewrite (IH (answered c w)).
      * unfold answered. cbn [log files kernel].
        rewrite (Hup 0%nat) by (cbn; lia).
        now rewrite <- app_assoc.
      * intros i Hi. rewrite upcoming_answered. apply Hup. cbn. lia.
    + apply orElse_ok. unfold request. now rewrite (Hup 0%nat) by (cbn; lia).
Qed.

(** When the [n]-th request is the first one that is refused, the run ends
    there: the requests before it are logged as accepted, then the refused
    one, then the closing of the device file. *)
Lemma registering_abort {A} f (k : M A) steps : forall n w st c stage e,
  files w !! f = Some st -> f_open st = true ->
  steps !! n = Some (c, stage) ->
  (forall i, (i < n)%nat -> upcoming w i = None) ->
  upcoming w n = Some e ->
  registering f steps k w =
    (Err (Errorf stage e),
     {| log := log w ++ accepted (take n (map fst steps))
                     ++ [(c, Some e); (CloseFile f, upcoming w (S n))];
        files := <[f := {| f_name := f_name st; f_open := false |}]> (files w);
        kernel := kernel w |}).
Proof.
  induction steps as [|[c0 stage0] steps IH];
    intros n w st c stage e Hf Ho Hn Hup He; [discriminate|].
  cbn [registering]. destruct n as [|n].
  - injection Hn as <- <-.
    apply bind_err.
    rewrite (orElse_err _ _ w e (answered c0 w)).
    + cbv beta.
      rewrite (bind_ok _ _ _ tt _ (discard_Close_open f (answered c0 w) st Hf Ho)).
      rewrite upcoming_answered. unfold fail, answered.
      cbn [log files kernel]. rewrite He. cbn [take accepted map app].
      now rewrite <- app_assoc.
    + unfold request. now rewrite He.
  - rewrite (bind_ok _ _ w tt (answered c0 w)).
    + rewrite (IH n (answered c0 w) st c stage e Hf Ho Hn).
      * rewrite upcoming_answered. unfold answered. cbn [log files kernel].
        rewrite (Hup 0%nat) by lia.
        cbn [map fst take accepted]. now rewrite <- !app_assoc.
      * intros i Hi. rewrite upcoming_answered. apply Hup. lia.
      * now rewrite upcoming_answered.
    + apply orElse_ok. unfold request. now rewrite (Hup 0%nat) by lia.
Qed.

End Registering.

Section Creation.
Context `{defs : uinputDefs}.

Lemma createDeviceFile_ok path w :
  upcoming w 0 = None ->
  createDeviceFile path w = (Ok (length (files w)), opened path w).
Proof. intros H. unfold createDeviceFile. now rewrite H. Qed.

(** The registration of a device whose file has just been opened, when
    every request is accepted. *)
Lemma registered_ok steps path w :
  let f := length (files w) in
  (forall i, (i < length steps)%nat -> upcoming w (S i) = None) ->
  registering f steps (ret f) (opened path w) =
    (Ok f,
     {| log := log w ++ accepted (OpenFile path :: map fst steps);
        files := files w ++ [{| f_name := path; f_open := true |}];
        kernel := kernel w |}).
Proof.
  intros f Hup.
  rewrite (registering_ok f (ret f) steps (opened path w)).
  - unfold ret, opened. cbn [log files kernel accepted map].
    now rewrite <- app_assoc.
  - intros i Hi. rewrite upcoming_opened. now apply Hup.
Qed.

(** The same, when the [n]-th request after the opening is the first one
    that is refused. *)
Lemma registered_abort steps path w n c stage e :
  let f := length (files w) in
  steps !! n = Some (c, stage) ->
  (forall i, (i < n)%nat -> upcoming w (S i) = None) ->
  upcoming w (S n) = Some e ->
  registering f steps (ret f) (opened path w) =
    (Err (Errorf stage e),
     {| log := log w ++ accepted (OpenFile path :: take n (map fst steps))
                     ++ [(c, Some e); (CloseFile f, upcoming w (S (S n)))];
        files := files w ++ [{| f_name := path; f_open := false |}];
        kernel := kernel w |}).
Proof.
  intros f Hn Hup He.
  rewrite (registering_abort f (ret f) steps n (opened path w)
             {| f_name := path; f_open := true |} c stage e).
  - rewrite upcoming_opened. unfold opened.
    cbn [log files kernel accepted map f_name].
    rewrite <- !app_assoc. cbn [app]. do 2 f_equal.
    unfold f. rewrite insert_app_r_alt by lia.
    now rewrite Nat.sub_diag.
  - unfold opened. cbn [files]. now apply list_lookup_middle.
  - reflexivity.
  - exact Hn.
  - intros i Hi. rewrite upcoming_opened. now apply Hup.
  - now rewrite upcoming_opened.
Qed.

(** [createMouse] and [createTouchPad] follow the protocol of section 4.3
    once the device file is open. *)
Lemma createMouse_protocol path name w :
  upcoming w 0 = None ->
  let f := length (files w) in
  Mouse.createMouse path name w =
    registering f (mouseSteps f ++ [finalStep f (mouseDev name)]) (ret f)
      (opened path w).
Proof.
  intros H f. unfold Mouse.createMouse.
  rewrite (bind_ok _ _ w f (opened path w)); [reflexivity|].
  apply orElse_ok. now apply createDeviceFile_ok.
Qed.

Lemma createTouchPad_protocol path name minX maxX minY maxY w :
  upcoming w 0 = None ->
  let f := length (files w) in
  TouchPad.createTouchPad path name minX maxX minY maxY w =
    registering f
      (touchPadSteps f ++ [finalStep f (touchPadDev name minX maxX minY maxY)])
      (ret f) (opened path w).
Proof.
  intros H f. unfold TouchPad.createTouchPad.
  rewrite (bind_ok _ _ w f (opened path w)); [reflexivity|].
  apply orElse_ok. now apply createDeviceFile_ok.
Qed.

(** The bounds in the descriptor of a touchpad. *)
Lemma touchPadDev_bounds name minX maxX minY maxY :
  0 <= absX < absSize -> 0 <= absY < absSize -> absX <> absY ->
  let dev := touchPadDev name minX maxX minY maxY in
  Absmin dev !! Z.to_nat absX = Some minX /\
  Absmax dev !! Z.to_nat absX = Some maxX /\
  Absmin dev !! Z.to_nat absY = Some minY /\
  Absmax dev !! Z.to_nat absY = Some maxY.
Proof.
  intros HX HY Hne dev. unfold dev, touchPadDev. cbn [Absmin Absmax].
  assert (Z.to_nat absY <> Z.to_nat absX) by lia.
  repeat split.
  - rewrite list_lookup_insert_ne by assumption.
    apply list_lookup_insert_eq. rewrite length_replicate. lia.
  - rewrite list_lookup_insert_ne by assumption.
    apply list_lookup_insert_eq. rewrite length_replicate. lia.
  - apply list_lookup_insert_eq. rewrite length_insert, length_replicate. lia.
  - apply list_lookup_insert_eq. rewrite length_insert, length_replicate. lia.
Qed.

(** C3. When every request is accepted, creating a mouse makes these calls,
    in this order and no other: open the device file, register the key
    category, the left-button code, the right-button code, the
    relative-motion category, the relative X code, the relative Y code, and
    submit the descriptor, whose bounds are all zero.  Creating a touchpad
    makes the same first four calls, then registers the absolute-position
    category, the absolute X code, the absolute Y code, and submits the
    descriptor with Absmin[absX] = minX, Absmax[absX] = maxX,
    Absmin[absY] = minY, Absmax[absY] = maxY.  So every code is registered
    after its category. *)
Theorem creation_order (path : string) (name : bytes)
    (minX maxX minY maxY : Z) (w : World) :
  let f := length (files w) in
  let created cs :=
    {| log := log w ++ accepted cs;
       files := files w ++ [{| f_name := path; f_open := true |}];
       kernel := kernel w |} in
  (forall i, (i < 8)%nat -> upcoming w i = None) ->
  0 <= absX < absSize -> 0 <= absY < absSize -> absX <> absY ->
  (exists dev,
     Mouse.createMouse path name w =
       (Ok f, created [ OpenFile path;
                        RegisterDevice f evKey;
                        Ioctl f uiSetKeyBit evBtnLeft;
                        Ioctl f uiSetKeyBit evBtnRight;
                        RegisterDevice f evRel;
                        Ioctl f uiSetRelBit relX;
                        Ioctl f uiSetRelBit relY;
                        CreateUsbDevice f dev ]) /\
     Absmin dev = replicate (Z.to_nat absSize) 0 /\
     Absmax dev = replicate (Z.to_nat absSize) 0) /\
  (exists dev,
     TouchPad.createTouchPad path name minX maxX minY maxY w =
       (Ok f, created [ OpenFile path;
                        RegisterDevice f evKey;
                        Ioctl f uiSetKeyBit evBtnLeft;
                        Ioctl f uiSetKeyBit evBtnRight;
                        RegisterDevice f evAbs;
                        Ioctl f uiSetAbsBit absX;
                        Ioctl f uiSetAbsBit absY;
                        CreateUsbDevice f dev ]) /\
     Absmin dev !! Z.to_nat absX = Some minX /\
     Absmax dev !! Z.to_nat absX = Some maxX /\
     Absmin dev !! Z.to_nat absY = Some minY /\
     Absmax dev !! Z.to_nat absY = Some maxY).
Proof.
  intros f created Hup HX HY Hne. split.
  - exists (mouseDev name). split; [|split; reflexivity].
    rewrite createMouse_protocol by (apply Hup; lia).
    apply registered_ok. intros i Hi. apply Hup. cbn in Hi. lia.
  - exists (touchPadDev name minX maxX minY maxY).
    split; [|now apply touchPadDev_bounds].
    rewrite createTouchPad_protocol by (apply Hup; lia).
    apply registered_ok. intros i Hi. apply Hup. cbn in Hi. lia.
Qed.

(** C4. When a registration step or the submission of the descriptor is
    refused during CreateTouchPad or CreateMouse (the [n]-th request after
    the opening being the first refused one), the device file is closed
    before the function returns, no device is returned, the error carries
    the text of the stage that failed, and no later step is executed: the
    log ends with the refused request and the closing of the file.  The
    texts of the stages are pairwise different. *)
Theorem setup_abort (path : string) (name : bytes)
    (minX maxX minY maxY : Z) (w : World) (n : nat) (e : error) :
  let f := length (files w) in
  let mouse := mouseSteps f ++ [finalStep f (mouseDev name)] in
  let touchPad :=
    touchPadSteps f ++ [finalStep f (touchPadDev name minX maxX minY maxY)] in
  let aborted steps c :=
    {| log := log w ++ accepted (OpenFile path :: take n (map fst steps))
                    ++ [(c, Some e); (CloseFile f, upcoming w (S (S n)))];
       files := files w ++ [{| f_name := path; f_open := false |}];
       kernel := kernel w |} in
  upcoming w 0 = None ->
  (forall i, (i < n)%nat -> upcoming w (S i) = None) ->
  upcoming w (S n) = Some e ->
  (forall c stage,
     mouse !! n = Some (c, stage) ->
     Mouse.createMouse path name w = (Err (Errorf stage e), aborted mouse c) /\
     Mouse.CreateMouse path name w = (Err (Errorf stage e), aborted mouse c)) /\
  (forall c stage,
     touchPad !! n = Some (c, stage) ->
     TouchPad.createTouchPad path name minX maxX minY maxY w
       = (Err (Errorf stage e), aborted touchPad c) /\
     TouchPad.CreateTouchPad path name minX maxX minY maxY w
       = (Err (Errorf stage e), aborted touchPad c)) /\
  NoDup (map snd mouse) /\ NoDup (map snd touchPad).
Proof.
  intros f mouse touchPad aborted H0 Hup He. split; [|split; [|split]].
  - intros c stage Hn.
    assert (Hc : Mouse.createMouse path name w
                 = (Err (Errorf stage e), aborted mouse c)).
    { rewrite createMouse_protocol by assumption.
      now apply registered_abort. }
    split; [exact Hc|]. unfold Mouse.CreateMouse. now apply bind_err.
  - intros c stage Hn.
    assert (Hc : TouchPad.createTouchPad path name minX maxX minY maxY w
                 = (Err (Errorf stage e), aborted touchPad c)).
    { rewrite createTouchPad_protocol by assumption.
      now apply registered_abort. }
    split; [exact Hc|]. unfold TouchPad.CreateTouchPad. now apply bind_err.
  - cbn. repeat (constructor; [rewrite ?elem_of_cons, elem_of_nil;
                               intuition discriminate|]).
    constructor.
  - cbn. repeat (constructor; [rewrite ?elem_of_cons, elem_of_nil;
                               intuition discriminate|]).
    constructor.
Qed.

(** C8. Both creation paths submit a descriptor with the bus type USB, the
    vendor 0x4711 and the version 1; the product is 0x0817 for the touchpad
    and 0x0816 for the mouse, and the two differ.  The descriptor is the
    eighth request of a creation whose first seven requests are accepted. *)
Theorem device_identity (path : string) (name : bytes)
    (minX maxX minY maxY : Z) (w : World) :
  let f := length (files w) in
  (forall i, (i < 7)%nat -> upcoming w i = None) ->
  exists devT devM,
    log (snd (TouchPad.createTouchPad path name minX maxX minY maxY w))
      !! (length (log w) + 7)%nat
      = Some (CreateUsbDevice f devT, upcoming w 7) /\
    log (snd (Mouse.createMouse path name w)) !! (length (log w) + 7)%nat
      = Some (CreateUsbDevice f devM, upcoming w 7) /\
    ID devT = {| Bustype := busUsb; Vendor := 0x4711;
                 Product := 0x0817; Version := 1 |} /\
    ID devM = {| Bustype := busUsb; Vendor := 0x4711;
                 Product := 0x0816; Version := 1 |} /\
    Product (ID devT) <> Product (ID devM).
Proof.
  intros f Hup.
  exists (touchPadDev name minX maxX minY maxY), (mouseDev name).
  split; [|split; [|repeat split; discriminate]].
  - rewrite createTouchPad_protocol by (apply Hup; lia).
    destruct (upcoming w 7) as [e|] eqn:E.
    + erewrite (registered_abort _ path w 6); [| reflexivity | | exact E].
      * cbn [snd log]. rewrite lookup_app_r by lia.
        replace (length (log w) + 7 - length (log w))%nat with 7%nat by lia.
        reflexivity.
      * intros i Hi. apply Hup. lia.
    + rewrite registered_ok.
      * cbn [snd log]. rewrite lookup_app_r by lia.
        replace (length (log w) + 7 - length (log w))%nat with 7%nat by lia.
        reflexivity.
      * intros i Hi. cbn in Hi.
        destruct (decide (i = 6%nat)) as [->|]; [exact E|apply Hup; lia].
  - rewrite createMouse_protocol by (apply Hup; lia).
    destruct (upcoming w 7) as [e|] eqn:E.
    + erewrite (registered_abort _ path w 6); [| reflexivity | | exact E].
      * cbn [snd log]. rewrite lookup_app_r by lia.
        replace (length (log w) + 7 - length (log w))%nat with 7%nat by lia.
        reflexivity.
      * intros i Hi. apply Hup. lia.
    + rewrite registered_ok.
      * cbn [snd log]. rewrite lookup_app_r by lia.
        replace (length (log w) + 7 - length (log w))%nat with 7%nat by lia.
        reflexivity.
      * intros i Hi. cbn in Hi.
        destruct (decide (i = 6%nat)) as [->|]; [exact E|apply Hup; lia].
Qed.

(** The run of a creation whose opening fails. *)
Lemma not_opened (path : string) (name : bytes)
    (minX maxX minY maxY : Z) (w w1 : World) (e : error) :
  createDeviceFile path w = (Err e, w1) ->
  TouchPad.createTouchPad path name minX maxX minY maxY w
    = (Err (Errorf "could not create absolute axis input device" e), w1) /\
  Mouse.createMouse path name w
    = (Err (Errorf "could not create relative axis input device" e), w1).
Proof.
  intros H. split.
  - unfold TouchPad.createTouchPad. apply bind_err.
    now rewrite (orElse_err _ _ w e w1).
  - unfold Mouse.createMouse. apply bind_err.
    now rewrite (orElse_err _ _ w e w1).
Qed.

(** X2. When the device file cannot be opened, the creation returns that
    error behind the text of the device kind, in the world the opening left:
    nothing is registered and nothing is closed, and no device is
    returned. *)
Theorem open_failure (path : string) (name : bytes)
    (minX maxX minY maxY : Z) (w w1 : World) (e : error) :
  createDeviceFile path w = (Err e, w1) ->
  TouchPad.CreateTouchPad path name minX maxX minY maxY w
    = (Err (Errorf "could not create absolute axis input device" e), w1) /\
  Mouse.CreateMouse path name w
    = (Err (Errorf "could not create relative axis input device" e), w1).
Proof.
  intros H.
  destruct (not_opened path name minX maxX minY maxY w w1 e H) as [HT HM].
  split.
  - unfold TouchPad.CreateTouchPad. now apply bind_err.
  - unfold Mouse.CreateMouse. now apply bind_err.
Qed.

(** The first request that the kernel refuses among the next [len], if any. *)
Lemma first_refused w len :
  (forall i, (i < len)%nat -> upcoming w i = None) \/
  (exists n e, (n < len)%nat /\
     (forall i, (i < n)%nat -> upcoming w i = None) /\ upcoming w n = Some e).
Proof.
  induction len as [|len [IH | (n & e & Hn & Hb & He)]].
  - left. intros i Hi. lia.
  - destruct (upcoming w len) as [e|] eqn:E.
    + right. exists len, e. auto.
    + left. intros i Hi.
      destruct (decide (i = len)) as [->|]; [exact E|apply IH; lia].
  - right. exists n, e. split; [lia|auto].
Qed.

(** The log of a registration whose requests are all accepted. *)
Lemma registered_log_all steps path w :
  (forall i, (i < length steps)%nat -> upcoming w (S i) = None) ->
  log (snd (registering (length (files w)) steps (ret (length (files w)))
              (opened path w)))
  = log w ++ accepted (take (S (length steps)) (OpenFile path :: map fst steps))
          ++ refusal (length (files w)) w (OpenFile path :: map fst steps)
               (S (length steps)).
Proof.
  intros Hup. rewrite registered_ok by assumption. cbn [snd log].
  unfold refusal. cbn [lookup list_lookup].
  rewrite (lookup_ge_None_2 (map fst steps)) by (rewrite length_map; lia).
  rewrite app_nil_r. cbn [take].
  rewrite take_ge by (rewrite length_map; lia). reflexivity.
Qed.

(** The log of a registration that stops at its [n]-th request after the
    opening. *)
Lemma registered_log_stop steps path w n e :
  (n < length steps)%nat ->
  (forall i, (i < n)%nat -> upcoming w (S i) = None) ->
  upcoming w (S n) = Some e ->
  log (snd (registering (length (files w)) steps (ret (length (files w)))
              (opened path w)))
  = log w ++ accepted (take (S n) (OpenFile path :: map fst steps))
          ++ refusal (length (files w)) w (OpenFile path :: map fst steps)
               (S n).
Proof.
  intros Hn Hb He.
  destruct (lookup_lt_is_Some_2 steps n Hn) as [[c stage] Hc].
  rewrite (registered_abort steps path w n c stage e Hc Hb He).
  cbn [snd log]. unfold refusal.
  assert (Hl : (OpenFile path :: map fst steps) !! S n = Some c).
  { change ((fst <$> steps) !! n = Some c).
    now rewrite list_lookup_fmap, Hc. }
  rewrite Hl, He. reflexivity.
Qed.

(** X1. Whatever the kernel answers, the calls that a creation makes are
    determined by the number n of requests that the kernel accepts before it
    refuses one: the log grows by the first n calls of the protocol of
    section 4.3, accepted, then by the refused call, then, when the refused
    call comes after the opening, by the closing of the device file, and by
    nothing else; when all eight are accepted, by the whole protocol. *)
Theorem calls_follow_protocol (path : string) (name : bytes)
    (minX maxX minY maxY : Z) (w : World) :
  let f := length (files w) in
  exists n,
    (n <= 8)%nat /\
    (forall i, (i < n)%nat -> upcoming w i = None) /\
    ((n < 8)%nat -> upcoming w n <> None) /\
    log (snd (Mouse.createMouse path name w))
      = log w ++ accepted (take n (mouseCalls path name f))
              ++ refusal f w (mouseCalls path name f) n /\
    log (snd (TouchPad.createTouchPad path name minX maxX minY maxY w))
      = log w
        ++ accepted (take n (touchPadCalls path name minX maxX minY maxY f))
        ++ refusal f w (touchPadCalls path name minX maxX minY maxY f) n.
Proof.
  intros f. subst f.
  destruct (first_refused w 8) as [Hall | (n & e & Hn & Hb & He)].
  - exists 8%nat. split; [lia|]. split; [exact Hall|]. split; [lia|].
    rewrite createMouse_protocol, createTouchPad_protocol
      by (apply Hall; lia).
    split; apply registered_log_all; intros i Hi; apply Hall; cbn in Hi; lia.
  - exists n. split; [lia|]. split; [exact Hb|].
    split; [intros _; now rewrite He|].
    destruct n as [|n].
    + unfold Mouse.createMouse, TouchPad.createTouchPad, bind, orElse,
        createDeviceFile, fail, refusal.
      cbn [lookup list_lookup mouseCalls touchPadCalls take accepted map app].
      rewrite He. split; reflexivity.
    + rewrite createMouse_protocol, createTouchPad_protocol
        by (apply Hb; lia).
      split; apply (registered_log_stop _ path w n e);
        first [ cbn; lia | intros i Hi; apply Hb; lia | exact He ].
Qed.

End Creation.

(** ** The theorems at work on one platform *)

(** C1 on a device that is plugged in: MoveTo(10, 20) writes the 24 bytes
    of (type 3, code 0, value 10), of (type 3, code 1, value 20) and of the
    synchronization record. *)
Lemma MoveTo_three_records_witness :
  TouchPad.MoveTo (defs := linux) pad 10 20 plugged
  = (Ok tt,
     {| log :=
          log plugged
          ++ [(WriteFile 0%nat
                 (le_bytes 16 0 ++ le_bytes 2 3 ++ le_bytes 2 0 ++ le_bytes 4 10),
               None);
              (WriteFile 0%nat
                 (le_bytes 16 0 ++ le_bytes 2 3 ++ le_bytes 2 1 ++ le_bytes 4 20),
               None);
              (WriteFile 0%nat (le_bytes 24 0), None)];
        files := files plugged; kernel := kernel plugged |}).
Proof.
  destruct (MoveTo_three_records (defs := linux) pad 10 20 _ _ _ plugged _ _ _
              eq_refl eq_refl eq_refl eq_refl eq_refl eq_refl) as [H E].
  rewrite H. f_equal.
Defined.

(** C2 on a mouse that is plugged in: LeftClick(). *)
Lemma click_four_records_witness :
  exists bufP bufR bufS w4,
    perform (defs := linux) (Mouse_LeftClick rodent) plugged = (Ok tt, w4) /\
    w4 = {| log := log plugged ++ [(WriteFile 0%nat bufP, None);
                                   (WriteFile 0%nat bufS, None);
                                   (WriteFile 0%nat bufR, None);
                                   (WriteFile 0%nat bufS, None)];
            files := files plugged; kernel := kernel plugged |}.
Proof.
  do 4 eexists.
  eapply (click_four_records (defs := linux) (Mouse_LeftClick rodent) 0x110
            _ _ _ plugged);
    reflexivity.
Defined.

(** C5 when the kernel refuses the second write of MoveTo(10, 20). *)
Lemma MoveTo_partial_failure_witness :
  exists bufX w2,
    TouchPad.MoveTo (defs := linux) pad 10 20 (unplugged 1 "EIO")
    = (Err "failed to write abs event to device file: write /dev/uinput: EIO",
       w2) /\
    written w2 = written (unplugged 1 "EIO") ++ [bufX].
Proof.
  do 2 eexists.
  eapply (proj2 (proj2 (proj2
            (MoveTo_partial_failure (defs := linux) pad 10 20
               (unplugged 1 "EIO")))));
    reflexivity.
Defined.



(** C7 for MoveLeft(5): the record written has the type 2, the code 0 and
    the value -5. *)
Lemma relative_move_records_witness :
  perform (defs := linux) (Mouse_MoveLeft rodent 5) plugged
  = (Ok tt,
     {| log :=
          log plugged
          ++ [(WriteFile 0%nat
                 (le_bytes 16 0 ++ le_bytes 2 2 ++ le_bytes 2 0
                  ++ le_bytes 4 (-5)),
               None);
              (WriteFile 0%nat (le_bytes 24 0), None)];
        files := files plugged; kernel := kernel plugged |}).
Proof.
  destruct (relative_move_records (defs := linux) (Mouse_MoveLeft rodent 5)
              0 (-5) _ _ plugged _ _
              (ex_intro _ rodent
                 (ex_intro _ 5 (or_introl (conj eq_refl (conj eq_refl eq_refl)))))
              eq_refl eq_refl eq_refl eq_refl) as (H & E & _).
  rewrite H. f_equal.
Defined.

(** C10 for MoveLeft(-2147483648): the record written has the value
    -2147483648, the bytes 00 00 00 80. *)
Lemma negation_wraps_witness :
  Mouse.MoveLeft (defs := linux) rodent (-2147483648) plugged
  = (Ok tt,
     {| log :=
          log plugged
          ++ [(WriteFile 0%nat
                 (le_bytes 16 0 ++ le_bytes 2 2 ++ le_bytes 2 0
                  ++ [Byte.x00; Byte.x00; Byte.x00; Byte.x80]),
               None);
              (WriteFile 0%nat (le_bytes 24 0), None)];
        files := files plugged; kernel := kernel plugged |}).
Proof.
  destruct (negation_wraps (defs := linux) rodent false (-2147483648)
              (-2147483648) _ _ plugged _ _
              eq_refl eq_refl eq_refl eq_refl eq_refl) as (H & E & _).
  rewrite H. f_equal.
Defined.


(** C3 when every request is accepted. *)
Lemma creation_order_witness :
  exists devM devT w1 w2,
    Mouse.createMouse (defs := linux) "/dev/uinput" [] fresh = (Ok 0%nat, w1) /\
    map fst (log w1) =
      [ OpenFile "/dev/uinput"; RegisterDevice 0%nat 1;
        Ioctl 0%nat 0x40045565 0x110; Ioctl 0%nat 0x40045565 0x111;
        RegisterDevice 0%nat 2;
        Ioctl 0%nat 0x40045566 0; Ioctl 0%nat 0x40045566 1;
        CreateUsbDevice 0%nat devM ] /\
    TouchPad.createTouchPad (defs := linux) "/dev/uinput" [] 0 100 0 200 fresh
      = (Ok 0%nat, w2) /\
    map fst (log w2) =
      [ OpenFile "/dev/uinput"; RegisterDevice 0%nat 1;
        Ioctl 0%nat 0x40045565 0x110; Ioctl 0%nat 0x40045565 0x111;
        RegisterDevice 0%nat 3;
        Ioctl 0%nat 0x40045567 0; Ioctl 0%nat 0x40045567 1;
        CreateUsbDevice 0%nat devT ] /\
    Absmin devT !! 1%nat = Some 0 /\ Absmax devT !! 1%nat = Some 200.
Proof.
  destruct (creation_order (defs := linux) "/dev/uinput" [] 0 100 0 200 fresh)
    as [(devM & HM & _) (devT & HT & _ & _ & Hmin & Hmax)].
  - intros i _. reflexivity.
  - cbn. lia.
  - cbn. lia.
  - discriminate.
  - exists devM, devT. do 2 eexists.
    split; [exact HM|]. split; [reflexivity|].
    split; [exact HT|]. split; [reflexivity|].
    split; [exact Hmin|exact Hmax].
Defined.

(** C4 when the kernel refuses the registration of the relative X code. *)
Lemma setup_abort_witness :
  exists w1,
    Mouse.CreateMouse (defs := linux) "/dev/uinput" [] (failing 5 "EINVAL")
    = (Err "failed to register relative x axis events: EINVAL", w1) /\
    map fst (log w1) =
      [ OpenFile "/dev/uinput"; RegisterDevice 0%nat 1;
        Ioctl 0%nat 0x40045565 0x110; Ioctl 0%nat 0x40045565 0x111;
        RegisterDevice 0%nat 2; Ioctl 0%nat 0x40045566 0; CloseFile 0%nat ] /\
    files w1 = [{| f_name := "/dev/uinput"; f_open := false |}].
Proof.
  destruct (setup_abort (defs := linux) "/dev/uinput" [] 0 100 0 200
              (failing 5 "EINVAL") 4 "EINVAL") as (HM & _).
  - reflexivity.
  - intros i Hi. do 4 (destruct i as [|i]; [reflexivity|]). lia.
  - reflexivity.
  - destruct (HM _ _ eq_refl) as [_ H].
    eexists. split; [exact H|]. split; reflexivity.
Defined.

(** C8 when every request is accepted. *)
Lemma device_identity_witness :
  exists devT devM,
    log (snd (TouchPad.createTouchPad (defs := linux)
                "/dev/uinput" [] 0 100 0 200 fresh)) !! 7%nat
      = Some (CreateUsbDevice 0%nat devT, None) /\
    log (snd (Mouse.createMouse (defs := linux) "/dev/uinput" [] fresh)) !! 7%nat
      = Some (CreateUsbDevice 0%nat devM, None) /\
    ID devT = {| Bustype := 3; Vendor := 0x4711;
                 Product := 0x0817; Version := 1 |} /\
    ID devM = {| Bustype := 3; Vendor := 0x4711;
                 Product := 0x0816; Version := 1 |}.
Proof.
  destruct (device_identity (defs := linux) "/dev/uinput" [] 0 100 0 200 fresh)
    as (devT & devM & HT & HM & IT & IM & _).
  - intros i _. reflexivity.
  - exists devT, devM. repeat split; assumption.
Defined.

(** X3 when the kernel refuses the write of the press. *)
Lemma click_press_failure_witness :
  exists w1,
    perform (defs := linux) (TouchPad_LeftClick pad) (unplugged 0 "EIO")
    = (Err (Errorf "Failed to issue the LeftClick event"
              (Errorf "failed to write button event to device file"
                 "write /dev/uinput: EIO")), w1) /\
    written w1 = [].
Proof.
  eexists. split.
  - eapply (proj1 (click_press_failure (defs := linux)
                     (TouchPad_LeftClick pad) 0x110 (unplugged 0 "EIO") _
                     eq_refl)).
    reflexivity.
  - reflexivity.
Defined.

(** X2 when the kernel refuses the opening. *)
Lemma open_failure_witness :
  exists w1,
    Mouse.CreateMouse (defs := linux) "/dev/uinput" [] (failing 0 "ENOENT")
    = (Err "could not create relative axis input device: open /dev/uinput: ENOENT",
       w1) /\
    files w1 = [] /\ map fst (log w1) = [OpenFile "/dev/uinput"].
Proof.
  eexists. split.
  - eapply (proj2 (open_failure (defs := linux) "/dev/uinput" [] 0 100 0 200
                     (failing 0 "ENOENT") _ _ eq_refl)).
  - split; reflexivity.
Defined.

(** ** More on the emitters: what they never do *)

Lemma world_eta w :
  w = {| log := log w ++ accepted (map (WriteFile 0%nat) []) ++ [];
         files := files w; kernel := kernel w |}.
Proof. destruct w. cbn. now rewrite app_nil_r. Qed.

Lemma writes_only_fail f n err : writes_only f n (fail err).
Proof.
  intros w. exists [], []. cbn. split; [apply world_eta|].
  split; [lia|]. split; [now left|discriminate].
Qed.

Lemma writes_only_ret f : writes_only f 0 (ret tt).
Proof.
  intros w. exists [], []. cbn. split; [apply world_eta|].
  split; [lia|]. split; [now left|reflexivity].
Qed.

Lemma writes_only_Write f buf :
  writes_only f 1 (File_Write f buf).
Proof.
  intros w. unfold File_Write, orElse, request, fail, answered.
  destruct (files w !! f) as [st|];
    [|exists [], []; cbn; split; [apply world_eta|];
      split; [lia|split; [now left|discriminate]]].
  destruct (f_open st);
    [|exists [], []; cbn; split; [apply world_eta|];
      split; [lia|split; [now left|discriminate]]].
  destruct (upcoming w 0) as [e|] eqn:E.
  - exists [], [(WriteFile f buf, Some e)]. cbn.
    split; [reflexivity|]. split; [lia|].
    split; [right; now eauto|discriminate].
  - exists [buf], []. cbn.
    split; [reflexivity|]. split; [lia|]. split; [now left|reflexivity].
Qed.

(** Putting a text before the error changes nothing in the world. *)
Lemma writes_only_orElse f n m (g : error -> error) :
  writes_only f n m ->
  writes_only f n (orElse m (fun err => fail (g err))).
Proof.
  intros H w. destruct (H w) as (bufs & tail & E & L & T & K).
  exists bufs, tail. unfold orElse, fail.
  destruct (m w) as [[[]|err] w1] eqn:Em; cbn [fst snd] in *.
  - split; [exact E|]. split; [exact L|]. split; [|exact K].
    destruct T as [T|(buf & e & err & T & He)]; [now left|discriminate].
  - split; [exact E|]. split; [exact L|]. split; [|discriminate].
    destruct T as [T|(buf & e & err' & T & He)]; [now left|].
    right. now eauto.
Qed.

(** One program after another. *)
Lemma writes_only_bind f n1 n2 m1 m2 :
  writes_only f n1 m1 -> writes_only f n2 m2 ->
  writes_only f (n1 + n2) (let* _ := m1 in m2).
Proof.
  intros H1 H2 w. destruct (H1 w) as (bufs & tail & E & L & T & K).
  unfold bind. destruct (m1 w) as [[[]|err] w1] eqn:Em; cbn [fst snd] in *.
  - destruct T as [->|(buf & e & err & _ & He)]; [|discriminate].
    destruct (H2 w1) as (bufs2 & tail2 & E2 & L2 & T2 & K2).
    exists (bufs ++ bufs2), tail2. split; [|split; [|split]].
    + rewrite E2, E. cbn [log files kernel]. f_equal.
      unfold accepted. rewrite !map_app, app_nil_r.
      now rewrite <- !app_assoc.
    + rewrite length_app. cbn [length] in L. lia.
    + exact T2.
    + intros HO. rewrite length_app, (K eq_refl), (K2 HO). reflexivity.
  - exists bufs, tail. split; [exact E|]. split; [lia|].
    split; [|discriminate].
    destruct T as [T|(buf & e & err' & T & He)]; [now left|].
    right. now eauto.
Qed.

Section Frames.
Context `{defs : uinputDefs}.

Lemma writes_only_syncEvents f : writes_only f 1 (syncEvents f).
Proof.
  unfold syncEvents. destruct (inputEventToBuffer syncEvent).
  - apply writes_only_Write.
  - apply writes_only_fail.
Qed.

Lemma writes_only_sendBtnEvent f key btnState :
  writes_only f 2 (sendBtnEvent f key btnState).
Proof.
  unfold sendBtnEvent.
  destruct (inputEventToBuffer (btnEvent key btnState)).
  - apply (writes_only_bind f 1 1).
    + apply writes_only_orElse, writes_only_Write.
    + apply writes_only_syncEvents.
  - apply writes_only_fail.
Qed.

Lemma writes_only_sendRelEvent f code pixel :
  writes_only f 2 (Mouse.sendRelEvent f code pixel).
Proof.
  unfold Mouse.sendRelEvent.
  destruct (inputEventToBuffer (Mouse.relEvent code pixel)).
  - apply (writes_only_bind f 1 1).
    + apply writes_only_orElse, writes_only_Write.
    + apply writes_only_syncEvents.
  - apply writes_only_fail.
Qed.

(** The loop of [sendAbsEvent], for any list of records. *)
Lemma writes_only_writeAbsEvents f ev :
  writes_only f (length ev) (TouchPad.writeAbsEvents f ev).
Proof.
  induction ev as [|iev ev IH]; cbn [TouchPad.writeAbsEvents length].
  - apply writes_only_ret.
  - destruct (inputEventToBuffer iev).
    + apply (writes_only_bind f 1 (length ev)); [|exact IH].
      apply writes_only_orElse, writes_only_Write.
    + apply writes_only_fail.
Qed.

Lemma writes_only_sendAbsEvent f x y :
  writes_only f 3 (TouchPad.sendAbsEvent f x y).
Proof.
  unfold TouchPad.sendAbsEvent.
  apply (writes_only_bind f 2 1).
  - apply (writes_only_writeAbsEvents f (TouchPad.absEvents x y)).
  - apply writes_only_syncEvents.
Qed.

Lemma writes_only_click f key text :
  writes_only f 4
    (let* _ := orElse (sendBtnEvent f key btnStatePressed)
                 (fun err => fail (Errorf text err)) in
     sendBtnEvent f key btnStateReleased).
Proof.
  apply (writes_only_bind f 2 2).
  - apply writes_only_orElse, writes_only_sendBtnEvent.
  - apply writes_only_sendBtnEvent.
Qed.

Lemma writes_only_perform op :
  writes_only (handle op) (records op) (perform op).
Proof.
  destruct op; cbn [perform handle records];
    first [ apply writes_only_sendAbsEvent
          | apply writes_only_sendRelEvent
          | apply writes_only_sendBtnEvent
          | apply writes_only_click ].
Qed.

(** X5. Whatever the kernel answers, an operation (MoveTo, a move, a click,
    a press, a release) adds to the log nothing but writes to its own device
    file, at most three for MoveTo, four for a click and two for the others;
    every write but the last has been accepted, and when the last one is
    refused the operation returns an error; when it returns no error, all its
    records have been written.  It makes no control request, opens nothing
    and closes nothing: the files are left as they were. *)
Theorem operations_only_write (op : operation) (w : World) :
  exists bufs tail,
    snd (perform op w)
      = {| log := log w ++ accepted (map (WriteFile (handle op)) bufs) ++ tail;
           files := files w; kernel := kernel w |} /\
    (length bufs + length tail <= records op)%nat /\
    (tail = [] \/
     exists buf e err,
       tail = [(WriteFile (handle op) buf, Some e)] /\
       fst (perform op w) = Err err) /\
    (fst (perform op w) = Ok tt -> length bufs = records op).
Proof. exact (writes_only_perform op w). Qed.

End Frames.

(** ** More on the creation *)

Section Lifecycle.
Context `{defs : uinputDefs}.

(** A registration that returns a file has had every request accepted. *)
Lemma registered_ok_inv steps path w r w' :
  let f := length (files w) in
  registering f steps (ret f) (opened path w) = (Ok r, w') ->
  (forall i, (i < length steps)%nat -> upcoming w (S i) = None) /\
  r = f /\
  w' = {| log := log w ++ accepted (OpenFile path :: map fst steps);
          files := files w ++ [{| f_name := path; f_open := true |}];
          kernel := kernel w |}.
Proof.
  intros f H. subst f.
  destruct (first_refused (opened path w) (length steps))
    as [Hall | (n & e & Hn & Hb & He)].
  - assert (Hup : forall i, (i < length steps)%nat -> upcoming w (S i) = None)
      by (intros i Hi; rewrite <- (upcoming_opened path); now apply Hall).
    rewrite (registered_ok steps path w Hup) in H.
    injection H as <- <-. auto.
  - destruct (lookup_lt_is_Some_2 steps n Hn) as [[c stage] Hc].
    rewrite (registered_abort steps path w n c stage e Hc) in H;
      [discriminate| |now rewrite <- (upcoming_opened path)].
    intros i Hi. rewrite <- (upcoming_opened path). now apply Hb.
Qed.

(** The opening of a creation that returns a file was accepted. *)
Lemma created_was_opened {A} path (h : error -> error) (k : File -> M A) w a w' :
  (let* deviceFile := orElse (createDeviceFile path)
                        (fun err => fail (h err)) in
   k deviceFile) w = (Ok a, w') ->
  upcoming w 0 = None.
Proof.
  unfold bind, orElse, createDeviceFile, fail.
  destruct (upcoming w 0); [discriminate|reflexivity].
Qed.

(** X6. CreateMouse and CreateTouchPad return a device only when the kernel
    has accepted all eight requests; the device then holds the name as given
    and the file that was opened, the log has grown by the whole protocol in
    its order, and the device file is open. *)
Theorem created_means_registered (path : string) (name : bytes)
    (minX maxX minY maxY : Z) (w : World) :
  let f := length (files w) in
  (forall v w',
     Mouse.CreateMouse path name w = (Ok v, w') ->
     (forall i, (i < 8)%nat -> upcoming w i = None) /\
     Mouse.name v = name /\ Mouse.deviceFile v = f /\
     log w' = log w ++ accepted (mouseCalls path name f) /\
     files w' !! f = Some {| f_name := path; f_open := true |}) /\
  (forall v w',
     TouchPad.CreateTouchPad path name minX maxX minY maxY w = (Ok v, w') ->
     (forall i, (i < 8)%nat -> upcoming w i = None) /\
     TouchPad.name v = name /\ TouchPad.deviceFile v = f /\
     log w' = log w
              ++ accepted (touchPadCalls path name minX maxX minY maxY f) /\
     files w' !! f = Some {| f_name := path; f_open := true |}).
Proof.
  intros f. split; intros v w' H.
  - unfold Mouse.CreateMouse, bind in H.
    destruct (Mouse.createMouse path name w) as [[r|err] w1] eqn:Hc;
      [|discriminate].
    injection H as <- <-.
    pose proof (created_was_opened _ _ _ _ _ _ Hc) as H0.
    rewrite (createMouse_protocol path name w H0) in Hc.
    apply registered_ok_inv in Hc as (Hup & -> & ->).
    split; [|cbn [Mouse.name Mouse.deviceFile log files];
             repeat split; now apply list_lookup_middle].
    intros [|i] Hi; [exact H0|]. apply Hup. cbn. lia.
  - unfold TouchPad.CreateTouchPad, bind in H.
    destruct (TouchPad.createTouchPad path name minX maxX minY maxY w)
      as [[r|err] w1] eqn:Hc; [|discriminate].
    injection H as <- <-.
    pose proof (created_was_opened _ _ _ _ _ _ Hc) as H0.
    rewrite (createTouchPad_protocol path name minX maxX minY maxY w H0) in Hc.
    apply registered_ok_inv in Hc as (Hup & -> & ->).
    split; [|cbn [TouchPad.name TouchPad.deviceFile log files];
             repeat split; now apply list_lookup_middle].
    intros [|i] Hi; [exact H0|]. apply Hup. cbn. lia.
Qed.

(** Every run of a registration leaves the files that existed as they
    were. *)
Lemma registered_frame steps path w g st :
  files w !! g = Some st ->
  files (snd (registering (length (files w)) steps (ret (length (files w)))
                (opened path w))) !! g = Some st.
Proof.
  intros Hg.
  destruct (first_refused (opened path w) (length steps))
    as [Hall | (n & e & Hn & Hb & He)].
  - rewrite registered_ok
      by (intros i Hi; rewrite <- (upcoming_opened path); now apply Hall).
    cbn [snd files]. now apply lookup_app_l_Some.
  - destruct (lookup_lt_is_Some_2 steps n Hn) as [[c stage] Hc].
    rewrite (registered_abort steps path w n c stage e Hc)
      by (try (intros i Hi); rewrite <- (upcoming_opened path); auto).
    cbn [snd files]. now apply lookup_app_l_Some.
Qed.

(** X7. The handles are isolated: a file that exists keeps its state, open
    or closed, through every operation on any handle, through the closing of
    any other handle, and through the creation of a mouse or of a touchpad,
    whether the creation succeeds or not. *)
Theorem handles_are_isolated (g : File) (st : fileState) (w : World)
    (path : string) (name : bytes) (minX maxX minY maxY : Z) :
  files w !! g = Some st ->
  (forall op, files (snd (perform op w)) !! g = Some st) /\
  (forall op, handle op <> g -> files (snd (close op w)) !! g = Some st) /\
  files (snd (Mouse.CreateMouse path name w)) !! g = Some st /\
  files (snd (TouchPad.CreateTouchPad path name minX maxX minY maxY w)) !! g
    = Some st.
Proof.
  intros Hg. split; [|split; [|split]].
  - intros op.
    destruct (writes_only_perform op w) as (bufs & tail & E & _).
    now rewrite E.
  - intros op Hne.
    assert (E : close op w = File_Close (handle op) w) by now destruct op.
    rewrite E. unfold File_Close.
    destruct (files w !! handle op) as [s|]; [|exact Hg].
    destruct (f_open s); [|exact Hg].
    cbn [snd files]. now rewrite list_lookup_insert_ne.
  - assert (H : files (snd (Mouse.createMouse path name w)) !! g = Some st).
    { destruct (upcoming w 0) as [e|] eqn:E.
      - unfold Mouse.createMouse, bind, orElse, createDeviceFile, fail.
        now rewrite E.
      - rewrite createMouse_protocol by assumption.
        now apply registered_frame. }
    unfold Mouse.CreateMouse, bind.
    now destruct (Mouse.createMouse path name w) as [[r|err] w1].
  - assert (H : files (snd (TouchPad.createTouchPad path name
                              minX maxX minY maxY w)) !! g = Some st).
    { destruct (upcoming w 0) as [e|] eqn:E.
      - unfold TouchPad.createTouchPad, bind, orElse, createDeviceFile, fail.
        now rewrite E.
      - rewrite createTouchPad_protocol by assumption.
        now apply registered_frame. }
    unfold TouchPad.CreateTouchPad, bind.
    now destruct (TouchPad.createTouchPad path name minX maxX minY maxY w)
      as [[r|err] w1].
Qed.

End Lifecycle.

(** ** More on the descriptor and on the errors of a creation *)

Section Descriptor.
Context `{defs : uinputDefs}.

(** The descriptor of a touchpad is the eighth request of its creation. *)
Lemma touchPad_submission path name minX maxX minY maxY w :
  (forall i, (i < 7)%nat -> upcoming w i = None) ->
  log (snd (TouchPad.createTouchPad path name minX maxX minY maxY w))
    !! (length (log w) + 7)%nat
  = Some (CreateUsbDevice (length (files w))
            (touchPadDev name minX maxX minY maxY), upcoming w 7).
Proof.
  intros Hup. rewrite createTouchPad_protocol by (apply Hup; lia).
  destruct (upcoming w 7) as [e|] eqn:E.
  - erewrite (registered_abort _ path w 6); [| reflexivity | | exact E].
    + cbn [snd log]. rewrite lookup_app_r by lia.
      replace (length (log w) + 7 - length (log w))%nat with 7%nat by lia.
      reflexivity.
    + intros i Hi. apply Hup. lia.
  - rewrite registered_ok.
    + cbn [snd log]. rewrite lookup_app_r by lia.
      replace (length (log w) + 7 - length (log w))%nat with 7%nat by lia.
      reflexivity.
    + intros i Hi. cbn in Hi.
      destruct (decide (i = 6%nat)) as [->|]; [exact E|apply Hup; lia].
Qed.

(** X8. The descriptor that createTouchPad submits carries the name through
    toUinputName, and its two arrays of bounds have absSize entries, all zero
    but those of the X and of the Y axis: no other axis gets a bound. *)
Theorem touchPad_descriptor_shape (path : string) (name : bytes)
    (minX maxX minY maxY : Z) (w : World) :
  (forall i, (i < 7)%nat -> upcoming w i = None) ->
  exists dev,
    log (snd (TouchPad.createTouchPad path name minX maxX minY maxY w))
      !! (length (log w) + 7)%nat
    = Some (CreateUsbDevice (length (files w)) dev, upcoming w 7) /\
    Name dev = toUinputName name /\
    length (Absmin dev) = Z.to_nat absSize /\
    length (Absmax dev) = Z.to_nat absSize /\
    (forall i, (i < Z.to_nat absSize)%nat ->
       i <> Z.to_nat absX -> i <> Z.to_nat absY ->
       Absmin dev !! i = Some 0 /\ Absmax dev !! i = Some 0).
Proof.
  intros Hup. exists (touchPadDev name minX maxX minY maxY).
  split; [now apply touchPad_submission|].
  unfold touchPadDev. cbn [Name Absmin Absmax].
  rewrite !length_insert, length_replicate.
  repeat split; rewrite !list_lookup_insert_ne by auto;
    now apply lookup_replicate_2.
Qed.

(** X9. createTouchPad does not look at the bounds: whatever they are, also
    when a minimum is above its maximum, the result (the file, or the error
    with its text) and the state of the files are those of the creation with
    any other bounds. *)
Theorem bounds_are_not_checked (path : string) (name : bytes)
    (minX maxX minY maxY minX' maxX' minY' maxY' : Z) (w : World) :
  fst (TouchPad.createTouchPad path name minX maxX minY maxY w)
    = fst (TouchPad.createTouchPad path name minX' maxX' minY' maxY' w) /\
  files (snd (TouchPad.createTouchPad path name minX maxX minY maxY w))
    = files (snd (TouchPad.createTouchPad path name minX' maxX' minY' maxY' w)).
Proof.
  destruct (upcoming w 0) as [e|] eqn:E.
  - unfold TouchPad.createTouchPad, bind, orElse, createDeviceFile, fail.
    now rewrite E.
  - rewrite !createTouchPad_protocol by assumption.
    destruct (first_refused (opened path w) 7)
      as [Hall | (n & e & Hn & Hb & He)].
    + rewrite !registered_ok
        by (intros i Hi; rewrite <- (upcoming_opened path);
            apply Hall; cbn in Hi; lia).
      split; reflexivity.
    + assert (Hb' : forall i, (i < n)%nat -> upcoming w (S i) = None)
        by (intros i Hi; rewrite <- (upcoming_opened path); now apply Hb).
      rewrite upcoming_opened in He.
      do 7 (destruct n as [|n];
            [ match type of He with
              | upcoming w (S ?k) = _ =>
                  rewrite (registered_abort
                             (touchPadSteps (length (files w))
                              ++ [finalStep (length (files w))
                                    (touchPadDev name minX maxX minY maxY)])
                             path w k _ _ e eq_refl Hb' He);
                  rewrite (registered_abort
                             (touchPadSteps (length (files w))
                              ++ [finalStep (length (files w))
                                    (touchPadDev name minX' maxX' minY' maxY')])
                             path w k _ _ e eq_refl Hb' He)
              end;
              split; reflexivity |]).
      lia.
Qed.

End Descriptor.

(** ** More on the mouse and on the buttons *)

Lemma int32_neg_range p : int32_min <= int32_neg p <= int32_max.
Proof.
  unfold int32_neg, to_int32, int32_min, int32_max.
  Z.div_mod_to_equations. lia.
Qed.

Lemma int32_neg_involutive p :
  int32_min <= p <= int32_max -> int32_neg (int32_neg p) = p.
Proof.
  unfold int32_neg, to_int32, int32_min, int32_max. intros H.
  Z.div_mod_to_equations. lia.
Qed.

Lemma int32_neg_fixed p :
  int32_min <= p <= int32_max ->
  (int32_neg p = p <-> p = 0 \/ p = int32_min).
Proof.
  unfold int32_neg, to_int32, int32_min, int32_max. intros H.
  split; intros H'; Z.div_mod_to_equations; lia.
Qed.

Section Buttons.
Context `{defs : uinputDefs}.

(** X10. For every int32 p, the delta that MoveLeft and MoveUp send is an
    int32 again; moving left by the negation of p is moving right by p, and
    moving up by the negation of p is moving down by p; the negation leaves p
    as it is only for 0 and for the least int32, so that MoveLeft and
    MoveRight send the same delta for these two arguments only. *)
Theorem negative_pixels_reverse (vRel : Mouse.vMouse) (p : Z) :
  int32_min <= p <= int32_max ->
  int32_min <= int32_neg p <= int32_max /\
  Mouse.MoveLeft vRel (int32_neg p) = Mouse.MoveRight vRel p /\
  Mouse.MoveUp vRel (int32_neg p) = Mouse.MoveDown vRel p /\
  (Mouse.relEvent relX (int32_neg p) = Mouse.relEvent relX p
   <-> p = 0 \/ p = int32_min).
Proof.
  intros H. split; [apply int32_neg_range|].
  unfold Mouse.MoveLeft, Mouse.MoveUp, Mouse.MoveRight, Mouse.MoveDown.
  rewrite (int32_neg_involutive p H). repeat split.
  - intros E. apply (int32_neg_fixed p H).
    exact (f_equal Value E).
  - intros E. apply (int32_neg_fixed p H) in E. now rewrite E.
Qed.

(** X11. The mouse and the touchpad handle their buttons alike: on handles
    of the same device file, LeftClick, RightClick, the two presses, the two
    releases and Close of the one are those of the other. *)
Theorem buttons_alike (vTouch : TouchPad.vTouchPad) (vRel : Mouse.vMouse) :
  TouchPad.deviceFile vTouch = Mouse.deviceFile vRel ->
  TouchPad.LeftClick vTouch = Mouse.LeftClick vRel /\
  TouchPad.RightClick vTouch = Mouse.RightClick vRel /\
  TouchPad.LeftPress vTouch = Mouse.LeftPress vRel /\
  TouchPad.LeftRelease vTouch = Mouse.LeftRelease vRel /\
  TouchPad.RightPress vTouch = Mouse.RightPress vRel /\
  TouchPad.RightRelease vTouch = Mouse.RightRelease vRel /\
  TouchPad.Close vTouch = Mouse.Close vRel.
Proof.
  intros H.
  unfold TouchPad.LeftClick, TouchPad.RightClick, TouchPad.LeftPress,
    TouchPad.LeftRelease, TouchPad.RightPress, TouchPad.RightRelease,
    TouchPad.Close, Mouse.LeftClick, Mouse.RightClick, Mouse.LeftPress,
    Mouse.LeftRelease, Mouse.RightPress, Mouse.RightRelease, Mouse.Close.
  rewrite H. repeat split.
Qed.

End Buttons.

(** ** The error of a creation tells its stage *)

Lemma string_append_inj (s a b : string) :
  String.append s a = String.append s b -> a = b.
Proof.
  induction s as [|c s IH]; cbn; [trivial|].
  intros [= H]. now apply IH.
Qed.

Lemma Errorf_inj msg a b : Errorf msg a = Errorf msg b -> a = b.
Proof.
  unfold Errorf. intros H.
  now apply string_append_inj, string_append_inj in H.
Qed.

(** Two texts of a table give the same error only when they are the same
    text, put before the same cause. *)
Lemma touchPadTexts_apart i j s s' x x' :
  touchPadTexts !! i = Some s -> touchPadTexts !! j = Some s' ->
  Errorf s x = Errorf s' x' -> i = j /\ x = x'.
Proof.
  intros Hi Hj.
  pose proof (lookup_lt_Some _ _ _ Hi) as Li.
  pose proof (lookup_lt_Some _ _ _ Hj) as Lj.
  cbn in Li, Lj.
  destruct i as [|[|[|[|[|[|[|i]]]]]]]; try lia;
    destruct j as [|[|[|[|[|[|[|j]]]]]]]; try lia;
    injection Hi as <-; injection Hj as <-; intros H;
    first [ split; [reflexivity|exact (Errorf_inj _ _ _ H)]
          | exfalso; unfold Errorf in H; cbn in H; discriminate H ].
Qed.

Lemma mouseTexts_apart i j s s' x x' :
  mouseTexts !! i = Some s -> mouseTexts !! j = Some s' ->
  Errorf s x = Errorf s' x' -> i = j /\ x = x'.
Proof.
  intros Hi Hj.
  pose proof (lookup_lt_Some _ _ _ Hi) as Li.
  pose proof (lookup_lt_Some _ _ _ Hj) as Lj.
  cbn in Li, Lj.
  destruct i as [|[|[|[|[|[|[|i]]]]]]]; try lia;
    destruct j as [|[|[|[|[|[|[|j]]]]]]]; try lia;
    injection Hi as <-; injection Hj as <-; intros H;
    first [ split; [reflexivity|exact (Errorf_inj _ _ _ H)]
          | exfalso; unfold Errorf in H; cbn in H; discriminate H ].
Qed.

Section Stages.
Context `{defs : uinputDefs}.

Lemma cause_inj path n e e' : cause path n e = cause path n e' -> e = e'.
Proof.
  destruct n; cbn [cause]; [|trivial]. unfold PathError. intros H.
  now do 4 apply string_append_inj in H.
Qed.

(** The error of a registration that stops at its [n]-th request. *)
Lemma refused_text steps path w n e :
  (n < length steps)%nat ->
  (forall i, (i < n)%nat -> upcoming w (S i) = None) ->
  upcoming w (S n) = Some e ->
  exists stage,
    map snd steps !! n = Some stage /\
    fst (registering (length (files w)) steps (ret (length (files w)))
           (opened path w)) = Err (Errorf stage e).
Proof.
  intros Hn Hb He.
  destruct (lookup_lt_is_Some_2 steps n Hn) as [[c stage] Hc].
  exists stage. split; [now rewrite list_lookup_fmap, Hc|].
  now rewrite (registered_abort steps path w n c stage e Hc Hb He).
Qed.

Lemma createTouchPad_refused path name minX maxX minY maxY w n e :
  (n < 7)%nat ->
  (forall i, (i < n)%nat -> upcoming w i = None) ->
  upcoming w n = Some e ->
  exists s,
    touchPadTexts !! n = Some s /\
    fst (TouchPad.createTouchPad path name minX maxX minY maxY w)
      = Err (Errorf s (cause path n e)).
Proof.
  intros Hn Hb He. destruct n as [|n].
  - eexists. split; [reflexivity|].
    unfold TouchPad.createTouchPad, bind, orElse, createDeviceFile, fail.
    now rewrite He.
  - destruct (refused_text
                (touchPadSteps (length (files w))
                 ++ [finalStep (length (files w))
                       (touchPadDev name minX maxX minY maxY)])
                path w n e) as (stage & Hs & Hr);
      [cbn; lia | intros i Hi; apply Hb; lia | exact He |].
    exists stage. split.
    + destruct n as [|[|[|[|[|[|n]]]]]]; try lia;
        cbn in Hs; injection Hs as <-; reflexivity.
    + rewrite createTouchPad_protocol by (apply Hb; lia). exact Hr.
Qed.

Lemma createMouse_refused path name w n e :
  (n < 7)%nat ->
  (forall i, (i < n)%nat -> upcoming w i = None) ->
  upcoming w n = Some e ->
  exists s,
    mouseTexts !! n = Some s /\
    fst (Mouse.createMouse path name w) = Err (Errorf s (cause path n e)).
Proof.
  intros Hn Hb He. destruct n as [|n].
  - eexists. split; [reflexivity|].
    unfold Mouse.createMouse, bind, orElse, createDeviceFile, fail.
    now rewrite He.
  - destruct (refused_text
                (mouseSteps (length (files w))
                 ++ [finalStep (length (files w)) (mouseDev name)])
                path w n e) as (stage & Hs & Hr);
      [cbn; lia | intros i Hi; apply Hb; lia | exact He |].
    exists stage. split.
    + destruct n as [|[|[|[|[|[|n]]]]]]; try lia;
        cbn in Hs; injection Hs as <-; reflexivity.
    + rewrite createMouse_protocol by (apply Hb; lia). exact Hr.
Qed.

(** X12. The error of a failed creation tells which stage failed and why:
    when two creations of a touchpad (or of a mouse) on the same path stop
    at the opening or at one of the six registrations and return the same
    error, they stopped at the same stage, on the same answer of the kernel,
    whatever the names and the bounds. *)
Theorem error_tells_stage (path : string) (name name' : bytes)
    (minX maxX minY maxY minX' maxX' minY' maxY' : Z)
    (w w' : World) (n n' : nat) (e e' : error) :
  (n < 7)%nat -> (n' < 7)%nat ->
  (forall i, (i < n)%nat -> upcoming w i = None) ->
  upcoming w n = Some e ->
  (forall i, (i < n')%nat -> upcoming w' i = None) ->
  upcoming w' n' = Some e' ->
  (fst (TouchPad.createTouchPad path name minX maxX minY maxY w)
     = fst (TouchPad.createTouchPad path name' minX' maxX' minY' maxY' w') ->
   n = n' /\ e = e') /\
  (fst (Mouse.createMouse path name w) = fst (Mouse.createMouse path name' w') ->
   n = n' /\ e = e').
Proof.
  intros Hn Hn' Hb He Hb' He'. split; intros H.
  - destruct (createTouchPad_refused path name minX maxX minY maxY w n e
                Hn Hb He) as (s & Hs & Hr).
    destruct (createTouchPad_refused path name' minX' maxX' minY' maxY' w' n' e'
                Hn' Hb' He') as (s' & Hs' & Hr').
    rewrite Hr, Hr' in H. injection H as H.
    destruct (touchPadTexts_apart _ _ _ _ _ _ Hs Hs' H) as [<- Hc].
    split; [reflexivity|now apply cause_inj in Hc].
  - destruct (createMouse_refused path name w n e Hn Hb He) as (s & Hs & Hr).
    destruct (createMouse_refused path name' w' n' e' Hn' Hb' He')
      as (s' & Hs' & Hr').
    rewrite Hr, Hr' in H. injection H as H.
    destruct (mouseTexts_apart _ _ _ _ _ _ Hs Hs' H) as [<- Hc].
    split; [reflexivity|now apply cause_inj in Hc].
Qed.

End Stages.

(** ** The further theorems at work on one platform *)

(** X6 for a mouse created when every request is accepted. *)
Lemma created_means_registered_witness :
  exists v w',
    Mouse.CreateMouse (defs := linux) "/dev/uinput" [] fresh = (Ok v, w') /\
    Mouse.deviceFile v = 0%nat /\
    files w' !! 0%nat = Some {| f_name := "/dev/uinput"; f_open := true |}.
Proof.
  do 2 eexists. split; [reflexivity|].
  destruct (proj1 (created_means_registered (defs := linux)
                     "/dev/uinput" [] 0 100 0 200 fresh) _ _ eq_refl)
    as (_ & _ & Hf & _ & Ho).
  split; [exact Hf|exact Ho].
Defined.

(** X7 for the file of a device that is plugged in, through a MoveTo on it
    and through the creation of a mouse. *)
Lemma handles_are_isolated_witness :
  files (snd (perform (defs := linux) (TouchPad_MoveTo pad 1 2) plugged)) !! 0%nat
    = Some {| f_name := "/dev/uinput"; f_open := true |} /\
  files (snd (Mouse.CreateMouse (defs := linux) "/dev/uinput" [] plugged)) !! 0%nat
    = Some {| f_name := "/dev/uinput"; f_open := true |}.
Proof.
  destruct (handles_are_isolated (defs := linux) 0%nat
              {| f_name := "/dev/uinput"; f_open := true |} plugged
              "/dev/uinput" [] 0 100 0 200 eq_refl) as (Hp & _ & Hm & _).
  split; [apply Hp|exact Hm].
Defined.

(** X8 for a touchpad with the bounds 0..100 and 0..200: the third axis has
    no bound. *)
Lemma touchPad_descriptor_shape_witness :
  exists dev,
    log (snd (TouchPad.createTouchPad (defs := linux)
                "/dev/uinput" [] 0 100 0 200 fresh)) !! 7%nat
      = Some (CreateUsbDevice 0%nat dev, None) /\
    length (Absmax dev) = 64%nat /\
    Absmax dev !! 2%nat = Some 0.
Proof.
  destruct (touchPad_descriptor_shape (defs := linux)
              "/dev/uinput" [] 0 100 0 200 fresh)
    as (dev & Hl & _ & _ & Hlen & Hz).
  - intros i _. reflexivity.
  - exists dev. split; [exact Hl|]. split; [exact Hlen|].
    apply Hz; cbn; lia.
Defined.

(** X10 for p = -5: moving left by 5 is moving right by -5. *)
Lemma negative_pixels_reverse_witness :
  Mouse.MoveLeft (defs := linux) rodent 5
    = Mouse.MoveRight (defs := linux) rodent (-5).
Proof.
  destruct (negative_pixels_reverse (defs := linux) rodent (-5))
    as (_ & H & _).
  - unfold int32_min, int32_max. lia.
  - exact H.
Defined.

(** X11 for a touchpad and a mouse on the same device file. *)
Lemma buttons_alike_witness :
  TouchPad.LeftClick (defs := linux) pad = Mouse.LeftClick (defs := linux) rodent.
Proof.
  exact (proj1 (buttons_alike (defs := linux) pad rodent eq_refl)).
Defined.

(** X12: a mouse whose left button is refused and one whose relative
    category is refused do not return the same error. *)
Lemma error_tells_stage_witness :
  exists s s',
    fst (Mouse.createMouse (defs := linux) "/dev/uinput" [] (failing 2 "EBUSY"))
      = Err s /\
    fst (Mouse.createMouse (defs := linux) "/dev/uinput" [] (failing 4 "EBUSY"))
      = Err s' /\
    s <> s'.
Proof.
  do 2 eexists. split; [reflexivity|]. split; [reflexivity|].
  intros H.
  destruct (error_tells_stage (defs := linux) "/dev/uinput" [] []
              0 100 0 200 0 100 0 200
              (failing 2 "EBUSY") (failing 4 "EBUSY") 2 4 "EBUSY" "EBUSY")
    as [_ Hm].
  - lia.
  - lia.
  - intros i Hi. do 2 (destruct i as [|i]; [reflexivity|]). lia.
  - reflexivity.
  - intros i Hi. do 4 (destruct i as [|i]; [reflexivity|]). lia.
  - reflexivity.
  - destruct (Hm (f_equal Err H)) as [N _]. discriminate N.
Defined.
